(** * records-to-docx: key=value parsing and output file naming

    A shallow embedding of [main.py]: the key=value parser
    [parse_kv_file], the filename sanitizer [safe_filename] and the driver
    [main], with the properties of the specification proved about them.

    Python strings are sequences of Unicode code points, so a [pystr] is a
    list of code points ([Z]).  The dict built by the parser is a finite map
    from strings to strings.  Printing, opening files and exiting are
    recorded by a small writer-and-exception monad. *)

From Stdlib Require Import ZArith List Bool Lia.
From Stdlib Require Import Strings.Ascii Strings.String Numbers.DecimalString.
From stdpp Require Import base option list gmap strings.

Local Open Scope Z_scope.

(** ** Python strings *)

Module PyStr.

Abbreviation pystr := (list Z) (only parsing).

(** A string literal of the source, as code points. *)
Definition py (s : string) : pystr :=
  map (fun a => Z.of_N (N_of_ascii a)) (list_ascii_of_string s).

Definition NL : Z := 10.   (* line feed *)
Definition CR : Z := 13.   (* carriage return *)
Definition DQUOTE : Z := 34.
Definition HASH : Z := 35.
Definition SQUOTE : Z := 39.
Definition HYPHEN : Z := 45.
Definition EQUALS : Z := 61.
Definition UNDERSCORE : Z := 95.

(** [str.isspace] for one code point, which is also what [str.strip]
    removes and what [\s] matches in a [str] pattern: CPython's
    [_PyUnicode_IsWhitespace]. *)
Definition isspace (c : Z) : bool :=
  ((9 <=? c) && (c <=? 13)) || ((28 <=? c) && (c <=? 32))
  || (c =? 133) || (c =? 160) || (c =? 5760)
  || ((8192 <=? c) && (c <=? 8202))
  || (c =? 8232) || (c =? 8233) || (c =? 8239) || (c =? 8287)
  || (c =? 12288).

Fixpoint lstrip (s : pystr) : pystr :=
  match s with
  | [] => []
  | c :: r => if isspace c then lstrip r else s
  end.

Definition rstrip (s : pystr) : pystr := rev (lstrip (rev s)).

(** [s.strip()] *)
Definition strip (s : pystr) : pystr := rstrip (lstrip s).

(** [s.startswith(p)] *)
Fixpoint startswith (p s : pystr) : bool :=
  match p, s with
  | [], _ => true
  | _ :: _, [] => false
  | a :: p', b :: s' => (a =? b) && startswith p' s'
  end.

(** [c in s] for a one-character [c]. *)
Definition contains (c : Z) (s : pystr) : bool := existsb (Z.eqb c) s.

(** [s.split(c, 1)] for a one-character separator: the text before the
    first [c] and the text after it, or [None] when [c] does not occur
    (Python then returns a one-element list). *)
Fixpoint split1 (c : Z) (s : pystr) : option (pystr * pystr) :=
  match s with
  | [] => None
  | x :: r =>
      if x =? c then Some ([], r)
      else match split1 c r with
           | Some (a, b) => Some (x :: a, b)
           | None => None
           end
  end.

Definition len (s : pystr) : Z := Z.of_nat (length s).

(** Bounds of a slice: a negative index counts from the end, and the
    result is clipped to the string. *)
Definition clip (s : pystr) (i : Z) : nat :=
  Z.to_nat (if i <? 0 then Z.max (len s + i) 0 else Z.min i (len s)).

(** [s[lo:hi]]; [None] is an omitted bound. *)
Definition slice (s : pystr) (lo hi : option Z) : pystr :=
  let a := match lo with Some i => clip s i | None => 0%nat end in
  let b := match hi with Some i => clip s i | None => length s end in
  drop a (take b s).

(** [s[i]]; [None] is an [IndexError]. *)
Definition getitem (s : pystr) (i : Z) : option Z :=
  if i <? 0 then
    (if 0 <=? len s + i then s !! Z.to_nat (len s + i) else None)
  else s !! Z.to_nat i.

(** [str(n)] for a non-negative integer. *)
Definition str_of_int (n : Z) : pystr :=
  py (NilEmpty.string_of_uint (N.to_uint (Z.to_N n))).

End PyStr.
Import PyStr.

(** ** The regular expressions of [safe_filename] *)

Section Sanitizer.

(** The alphanumeric code points above ASCII ([str.isalnum] in the Unicode
    database of the interpreter); the ASCII part is written out below. *)
Variable unicode_isalnum : Z -> bool.

Definition isalnum (c : Z) : bool :=
  if c <? 128 then
    ((48 <=? c) && (c <=? 57)) || ((65 <=? c) && (c <=? 90))
    || ((97 <=? c) && (c <=? 122))
  else unicode_isalnum c.

(** [\w] with [re.UNICODE]. *)
Definition isword (c : Z) : bool := isalnum c || (c =? UNDERSCORE).

(** The class [[^\w\s-]]. *)
Definition unsafe (c : Z) : bool :=
  negb (isword c || isspace c || (c =? HYPHEN)).

(** [re.sub] of the class above by the empty string: every match is one
    character, replaced by nothing. *)
Fixpoint sub_unsafe (s : pystr) : pystr :=
  match s with
  | [] => []
  | c :: r => if unsafe c then sub_unsafe r else c :: sub_unsafe r
  end.

(** [re.sub] of [\s+] by an underscore: scanning from the left, a match starts at the
    first whitespace character met and, being greedy, runs over all the
    whitespace that follows; [in_match] tells that the scan is inside a
    match, whose replacement has been emitted already. *)
Fixpoint sub_spaces (in_match : bool) (s : pystr) : pystr :=
  match s with
  | [] => []
  | c :: r =>
      if isspace c then
        (if in_match then sub_spaces true r
         else UNDERSCORE :: sub_spaces true r)
      else c :: sub_spaces false r
  end.

(** [str(s or empty)], for [s] a string or [None]. *)
Definition str_or_empty (s : option pystr) : pystr :=
  match s with
  | Some (c :: r) => c :: r
  | _ => []
  end.

(** [x or y] on strings: the empty string is false. *)
Definition or_str (x y : pystr) : pystr :=
  match x with
  | [] => y
  | _ :: _ => x
  end.

Definition safe_filename (s : option pystr) (maxlen : Z) : pystr :=
  let s := str_or_empty s in
  let s := strip s in
  let s := sub_unsafe s in
  let s := sub_spaces false s in
  or_str (slice s None (Some maxlen)) (py "output").

Definition default_maxlen : Z := 120.

End Sanitizer.

(** ** Effects: diagnostics, files and exceptions *)

Module IO.

Inductive exn :=
| FileNotFoundError (msg : pystr)
| OSError (msg : pystr)           (* raised by [open] or [mkdir] *)
| ValueError (msg : pystr)
| UnicodeDecodeError (msg : pystr) (* raised while reading a text file *)
| UnicodeEncodeError (msg : pystr) (* raised by [print] on standard output *)
| DocxError (msg : pystr)         (* whatever docxtpl raises *)
| SystemExit (code : Z).

(** [str(e)] *)
Definition exn_str (e : exn) : pystr :=
  match e with
  | FileNotFoundError m | OSError m | ValueError m | DocxError m => m
  | UnicodeDecodeError m | UnicodeEncodeError m => m
  | SystemExit c => str_of_int c
  end.

(** [except Exception] catches everything but [SystemExit]. *)
Definition is_Exception (e : exn) : bool :=
  match e with
  | SystemExit _ => false
  | _ => true
  end.

Inductive event :=
| Stderr (line : pystr)           (* print(..., file=sys.stderr) *)
| Stdout (line : pystr)           (* print(...), when it succeeds *)
| Mkdir (path : pystr)
| Open (path : pystr)             (* opened for reading, here or by docxtpl *)
| Save (template : pystr) (context : gmap pystr pystr) (out : pystr).
                                  (* rendered, and [tpl.save] returned *)

(** A computation: what it did, and its value or the exception raised. *)
Definition io (A : Type) : Type := list event * (exn + A).

Definition ret {A} (a : A) : io A := ([], inr a).

Definition bind {A B} (m : io A) (f : A -> io B) : io B :=
  match m with
  | (t, inl e) => (t, inl e)
  | (t, inr a) => let '(t', r) := f a in (t ++ t', r)
  end.

Definition raise {A} (e : exn) : io A := ([], inl e).

Definition emit (ev : event) : io unit := ([ev], inr tt).

(** [try: m  except Exception as e: h e] *)
Definition try_except {A} (m : io A) (h : exn -> io A) : io A :=
  match m with
  | (t, inl e) =>
      if is_Exception e then let '(t', r) := h e in (t ++ t', r)
      else (t, inl e)
  | (t, inr a) => (t, inr a)
  end.

Definition sys_exit {A} (code : Z) : io A := raise (SystemExit code).

(** The exit status of the process. *)
Definition exit_status {A} (m : io A) : Z :=
  match snd m with
  | inr _ => 0
  | inl (SystemExit c) => c
  | inl _ => 1                    (* traceback of an uncaught exception *)
  end.

Definition trace {A} (m : io A) : list event := fst m.

End IO.
Import IO.

Notation "x <- m ;; k" := (bind m (fun x => k))
  (at level 100, m at next level, right associativity, only parsing).
Notation "m ;;; k" := (bind m (fun _ => k))
  (at level 100, right associativity, only parsing).

(** ** What the program finds outside itself *)

Inductive node :=
| Absent                            (* no such path *)
| NotText (err : pystr)             (* exists, but [open] raises: a directory,
                                       no permission *)
| Text (content : pystr)            (* a readable UTF-8 text file *)
| Garbled (lines : list pystr) (err : pystr).
                                    (* opens, yields [lines], then decoding
                                       the next bytes raises [err] *)

Record world := {
  path_str : pystr -> pystr;                 (* str(Path(s)) *)
  path_join : pystr -> pystr -> pystr;       (* str(Path(d) / n) *)
  fs : pystr -> node;
  mkdir_error : pystr -> option pystr;       (* outdir.mkdir(...) failing *)
  docx_error : pystr -> gmap pystr pystr -> pystr -> option pystr;
                                             (* docxtpl failing *)
  stdout_encode_error : pystr -> option pystr
                                             (* a line that standard output
                                                cannot encode *)
}.

Definition path_exists (w : world) (p : pystr) : bool :=
  match fs w p with
  | Absent => false
  | _ => true
  end.

(** [print(line)]: standard output may be unable to encode the line.
    Standard error replaces what it cannot encode, so printing there does
    not fail that way. *)
Definition print_stdout (w : world) (line : pystr) : io unit :=
  match stdout_encode_error w line with
  | Some err => raise (UnicodeEncodeError err)
  | None => emit (Stdout line)
  end.

(** Iterating over a text file opened with universal newlines: a line ends
    at LF, CR or CR LF, each read as LF, and a last line without
    a line end is yielded as it is.  [cur] is the current line, reversed. *)
Fixpoint readlines_from (cur : pystr) (s : pystr) : list pystr :=
  match s with
  | [] => match cur with [] => [] | _ :: _ => [rev cur] end
  | c :: r =>
      if c =? NL then rev (NL :: cur) :: readlines_from [] r
      else if c =? CR then
        match r with
        | d :: r' =>
            if d =? NL then rev (NL :: cur) :: readlines_from [] r'
            else rev (NL :: cur) :: readlines_from [] r
        | [] => rev (NL :: cur) :: readlines_from [] r
        end
      else readlines_from (c :: cur) r
  end.

Definition readlines (s : pystr) : list pystr := readlines_from [] s.

(** [path.open(encoding=...)]: the file object, as the lines its iteration
    yields and the decoding error that ends the iteration, if any.  The
    bytes are decoded while the file is read, not when it is opened. *)
Definition open_text (w : world) (p : pystr)
  : io (list pystr * option pystr) :=
  emit (Open p) ;;;
  match fs w p with
  | Absent => raise (FileNotFoundError p)
  | NotText err => raise (OSError err)
  | Text content => ret (readlines content, None)
  | Garbled lines err => ret (lines, Some err)
  end.

(** ** [parse_kv_file] *)

(** The test of line 48: [val] has at least two characters, [val[0]] equals
    [val[-1]], and [val[0]] is a single or a double quote.  Both indexings
    are in range once the length test has passed (see [quoted_indices]). *)
Definition quoted (val : pystr) : bool :=
  (2 <=? len val) &&
  match getitem val 0, getitem val (-1) with
  | Some a, Some b => (a =? b) && ((a =? SQUOTE) || (a =? DQUOTE))
  | _, _ => false
  end.

(** The body of the [for] loop, for the line [raw] numbered [lineno]. *)
Definition kv_line (lineno : Z) (raw : pystr) (data : gmap pystr pystr)
  : io (gmap pystr pystr) :=
  let line := strip raw in
  if bool_decide (line = []) || startswith (py "#") line then ret data
  else if negb (contains EQUALS line) then
    emit (Stderr (py "Warning: skipping invalid line " ++ str_of_int lineno
                    ++ py ": " ++ line)) ;;;
    ret data
  else
    match split1 EQUALS line with
    | None => raise (ValueError (py "not enough values to unpack"))
    | Some (key, val) =>
        let key := strip key in
        let val := strip val in
        let val := if quoted val then slice val (Some 1) (Some (-1)) else val in
        ret (<[key := val]> data)
    end.

(** [for lineno, raw in enumerate(fh, start=lineno): ...] *)
Fixpoint kv_loop (lineno : Z) (lines : list pystr) (data : gmap pystr pystr)
  : io (gmap pystr pystr) :=
  match lines with
  | [] => ret data
  | raw :: rest =>
      data' <- kv_line lineno raw data ;;
      kv_loop (lineno + 1) rest data'
  end.

Definition parse_kv_file (w : world) (path : pystr) : io (gmap pystr pystr) :=
  let data := ∅ in
  if negb (path_exists w path) then
    raise (FileNotFoundError (py "KV file not found: " ++ path))
  else
    fh <- open_text w path ;;
    data <- kv_loop 1 (fst fh) data ;;
    match snd fh with
    | Some err => raise (UnicodeDecodeError err)
    | None => ret data
    end.

(** ** [generate_doc] and [main] *)

(** The three calls into docxtpl: the template is opened, rendered with the
    context and saved; [docx_error] is the exception any of them raises. *)
Definition generate_doc (w : world) (template_path : pystr)
    (context : gmap pystr pystr) (out_path : pystr) : io unit :=
  emit (Open template_path) ;;;
  match docx_error w template_path context out_path with
  | Some err => raise (DocxError err)
  | None => emit (Save template_path context out_path)
  end.

Record args := {
  kvfile : pystr;
  template : pystr;
  outdir : pystr;                   (* output_docs unless given *)
  name : option pystr               (* [None] unless given *)
}.

(** [x or y] where [x] may be [None]: [None] and the empty string are
    false. *)
Definition truthy (x : option pystr) : bool :=
  match x with
  | Some (_ :: _) => true
  | _ => false
  end.

Definition py_or (x y : option pystr) : option pystr :=
  if truthy x then x else y.

Section Main.

Variable unicode_isalnum : Z -> bool.
Variable w : world.

(** Lines 92-98: the name of the output file. *)
Definition out_name (name : option pystr) (ctx : gmap pystr pystr) : pystr :=
  if truthy name then default [] name
  else
    let candidate :=
      py_or (py_or (py_or (py_or (py_or (ctx !! py "FIRSTNAME")
                                        (ctx !! py "name"))
                                 (ctx !! py "Name"))
                          (ctx !! py "FULLNAME"))
                   (ctx !! py "FULL_NAME"))
            (Some []) in
    let base :=
      if truthy candidate
      then safe_filename unicode_isalnum candidate default_maxlen
      else py "document" in
    base ++ py ".docx".

(** [main] from line 73 on, for the arguments [a] that [parse_args]
    returned; [main_argv] below is the whole function. *)
Definition main (a : args) : io unit :=
  let kv_path := path_str w (kvfile a) in
  let tpl_path := path_str w (template a) in
  let outdir := path_str w (outdir a) in
  (match mkdir_error w outdir with
   | Some err => emit (Mkdir outdir) ;;; raise (OSError err)
   | None => emit (Mkdir outdir)
   end) ;;;
  (if negb (path_exists w tpl_path) then
     emit (Stderr (py "Error: template not found: " ++ tpl_path)) ;;;
     sys_exit 2
   else ret tt) ;;;
  ctx <- try_except (parse_kv_file w kv_path)
           (fun e =>
              emit (Stderr (py "Error reading kv file: " ++ exn_str e)) ;;;
              sys_exit 3) ;;
  (if bool_decide (ctx = ∅) then
     emit (Stderr (py "Warning: no key/value pairs found in kv file."))
   else ret tt) ;;;
  let out_name := out_name (name a) ctx in
  let out_path := path_join w outdir out_name in
  try_except
    (generate_doc w tpl_path ctx out_path ;;;
     print_stdout w (py "Generated: " ++ out_path))
    (fun e =>
       emit (Stderr (py "ERROR generating document: " ++ exn_str e)) ;;;
       sys_exit 4).

(** What [p.parse_args()] makes of the command line; argparse is library
    code, so its verdict is given: the arguments, a request for help, or a
    usage error. *)
Inductive cli :=
| Parsed (a : args)
| Help (text : pystr)
| Usage (text : pystr).

(** Lines 66-71: argparse prints the help and exits with 0, or prints the
    usage error and exits with 2. *)
Definition parse_args (c : cli) : io args :=
  match c with
  | Parsed a => ret a
  | Help text => print_stdout w text ;;; sys_exit 0
  | Usage text => emit (Stderr text) ;;; sys_exit 2
  end.

(** The whole of [main()], lines 65-107. *)
Definition main_argv (c : cli) : io unit :=
  a <- parse_args c ;;
  main a.

End Main.

(** ** The specification's words, as predicates *)

Module Spec.

(** Whitespace only. *)
Definition blank (s : pystr) : Prop := Forall (fun c => isspace c = true) s.

Definition no_space_at_ends (t : pystr) : Prop :=
  (forall c r, t = c :: r -> isspace c = false) /\
  (forall c r, t = r ++ [c] -> isspace c = false).

(** [t] is [s] trimmed of surrounding whitespace. *)
Definition trimmed (s t : pystr) : Prop :=
  exists pre post,
    s = pre ++ t ++ post /\ blank pre /\ blank post /\ no_space_at_ends t.

(** [t] is [s] with every maximal run of whitespace replaced by a single
    underscore: a run is taken whole, since what follows it does not start
    with whitespace. *)
Inductive collapsed : pystr -> pystr -> Prop :=
| collapsed_nil : collapsed [] []
| collapsed_char c r t :
    isspace c = false -> collapsed r t -> collapsed (c :: r) (c :: t)
| collapsed_run ws r t :
    ws <> [] -> blank ws ->
    (forall c r', r = c :: r' -> isspace c = false) ->
    collapsed r t -> collapsed (ws ++ r) (UNDERSCORE :: t).

(** The outer quote pair of a value wrapped in matching single or double
    quotes. *)
Definition wrapped (val inner : pystr) : Prop :=
  exists q, (q = SQUOTE \/ q = DQUOTE) /\ val = q :: inner ++ [q].

End Spec.
Import Spec.

(** ** Notions used in the statements *)

Section SanitizerSpec.

Variable u : Z -> bool.

(** What [safe_filename] truncates: the input trimmed, cleaned of unsafe
    characters, with its whitespace runs replaced. *)
Definition sanitized_text (s : option pystr) : pystr :=
  sub_spaces false (sub_unsafe u (strip (str_or_empty s))).

(** A character the specification lets through: a word character,
    whitespace or a hyphen. *)
Definition allowed (c : Z) : bool :=
  isword u c || isspace c || (c =? HYPHEN).

(** The specification's sanitizer, step by step. *)
Definition sanitizes (s : option pystr) (maxlen : Z) (r : pystr) : Prop :=
  exists t1 t2 t3 t4,
    trimmed (default [] s) t1 /\
    t2 = List.filter allowed t1 /\
    collapsed t2 t3 /\
    t4 = take (Z.to_nat maxlen) t3 /\
    r = (if bool_decide (t4 = []) then py "output" else t4).

(** What is left after both substitutions: word characters and hyphens,
    none of them whitespace. *)
Definition clean (c : Z) : Prop :=
  (isword u c = true \/ c = HYPHEN) /\ isspace c = false.

End SanitizerSpec.

(** What line 49 does to a value. *)
Definition unquote (val : pystr) : pystr :=
  if quoted val then slice val (Some 1) (Some (-1)) else val.

(** The pair a line contributes to the mapping, if any: none for a blank
    line, a comment, or a line without an equals sign. *)
Definition line_pair (raw : pystr) : option (pystr * pystr) :=
  let line := strip raw in
  if bool_decide (line = []) || startswith (py "#") line then None
  else match split1 EQUALS line with
       | Some (key, val) => Some (strip key, unquote (strip val))
       | None => None
       end.

Definition store (e : option (pystr * pystr)) (data : gmap pystr pystr)
  : gmap pystr pystr :=
  match e with
  | Some (key, val) => <[key := val]> data
  | None => data
  end.

(** The text of the warning of line 42. *)
Definition warning (lineno : Z) (line : pystr) : pystr :=
  py "Warning: skipping invalid line " ++ str_of_int lineno ++ py ": " ++ line.

(** A line that is neither blank nor a comment, and has no equals sign. *)
Definition invalid (raw : pystr) : Prop :=
  strip raw <> [] /\ startswith (py "#") (strip raw) = false /\
  contains EQUALS (strip raw) = false.

(** The mapping after the lines [lines], starting from [data]. *)
Definition kv_result (lines : list pystr) (data : gmap pystr pystr)
  : gmap pystr pystr :=
  foldl (fun d raw => store (line_pair raw) d) data lines.

(** The keys tried for the name of the output file, in order. *)
Definition candidate_keys : list pystr :=
  [py "FIRSTNAME"; py "name"; py "Name"; py "FULLNAME"; py "FULL_NAME"].

(** The first value that is not empty among the keys [keys], in order. *)
Fixpoint first_nonempty (ctx : gmap pystr pystr) (keys : list pystr)
  : option pystr :=
  match keys with
  | [] => None
  | k :: ks =>
      match ctx !! k with
      | Some (c :: r) => Some (c :: r)
      | _ => first_nonempty ctx ks
      end
  end.

Section ExitKinds.

Variable u : Z -> bool.

(** The three fatal errors.  In each the output directory could be made;
    a failing [mkdir] is an uncaught exception, not one of the three. *)
Definition template_missing (w : world) (a : args) : Prop :=
  mkdir_error w (path_str w (outdir a)) = None /\
  path_exists w (path_str w (template a)) = false.

Definition kv_unreadable (w : world) (a : args) : Prop :=
  mkdir_error w (path_str w (outdir a)) = None /\
  path_exists w (path_str w (template a)) = true /\
  (fs w (path_str w (kvfile a)) = Absent \/
   (exists err, fs w (path_str w (kvfile a)) = NotText err) \/
   (exists lines err, fs w (path_str w (kvfile a)) = Garbled lines err)).

Definition generation_fails (w : world) (a : args) : Prop :=
  mkdir_error w (path_str w (outdir a)) = None /\
  path_exists w (path_str w (template a)) = true /\
  exists ctx err,
    snd (parse_kv_file w (path_str w (kvfile a))) = inr ctx /\
    docx_error w (path_str w (template a)) ctx
      (path_join w (path_str w (outdir a)) (out_name u (name a) ctx))
    = Some err.

End ExitKinds.

(** ** Sample inputs *)

(** A world to run the program in: the files [files], a renderer that fails
    with [docx] if given, and paths written as they are. *)
Definition sample_world (files : list (pystr * node)) (docx : option pystr)
  : world :=
  {| path_str := fun s => s;
     path_join := fun d n => d ++ py "/" ++ n;
     fs := fun p =>
       match list_find (fun f => fst f = p) files with
       | Some (_, (_, n)) => n
       | None => Absent
       end;
     mkdir_error := fun _ => None;
     docx_error := fun _ _ _ => docx;
     stdout_encode_error := fun _ => None |}.

(** The alphanumeric code points of Latin-1 above ASCII: a table to run the
    sanitizer with. *)
Definition latin1_isalnum (c : Z) : bool :=
  (c =? 170) || (c =? 178) || (c =? 179) || (c =? 181) || (c =? 185)
  || (c =? 186) || ((188 <=? c) && (c <=? 190))
  || ((192 <=? c) && (c <=? 214)) || ((216 <=? c) && (c <=? 246))
  || ((248 <=? c) && (c <=? 255)).

(** The five-line example of the specification. *)
Definition five_lines : pystr :=
  py "A=1" ++ [NL] ++ py "B=2" ++ [NL] ++ py "# comment" ++ [NL] ++ [NL]
  ++ py "C=3".

(** ** Files as lines *)

(** The text of a file whose lines [ls] each end with [eol], followed by a
    last line [last] without a line end (empty when the file ends with
    [eol]). *)
Definition text_of (eol : pystr) (ls : list pystr) (last : pystr) : pystr :=
  concat (map (fun l => l ++ eol) ls) ++ last.

(** A line proper: no line feed and no carriage return inside. *)
Definition one_line (l : pystr) : Prop :=
  Forall (fun c => c <> NL /\ c <> CR) l.

(** The three line ends that universal newlines reads. *)
Definition is_eol (eol : pystr) : Prop :=
  eol = [NL] \/ eol = [CR; NL] \/ eol = [CR].

(** The lines the loop sees for [text_of eol ls last]. *)
Definition lines_read (ls : list pystr) (last : pystr) : list pystr :=
  map (fun l => l ++ [NL]) ls ++ match last with [] => [] | _ :: _ => [last] end.

(** The pairs of the valid lines, in file order. *)
Definition pairs_of (lines : list pystr) : list (pystr * pystr) :=
  omap line_pair lines.

(** Nothing but diagnostics. *)
Definition is_stderr (ev : event) : Prop := exists l, ev = Stderr l.


(** The diagnostics of [main] between opening the KV file and rendering:
    the warnings of the parser, then the warning of an empty mapping. *)
Definition diagnostics (content : pystr) : list event :=
  trace (kv_loop 1 (readlines content) ∅)
  ++ (if bool_decide (kv_result (readlines content) ∅ = ∅)
      then [Stderr (py "Warning: no key/value pairs found in kv file.")]
      else []).

(** A path separator or a dot. *)
Definition path_char (c : Z) : Prop := c = 46 \/ c = 47 \/ c = 92.


(** ** Strings: stripping, splitting, slicing *)

Lemma lstrip_blank_app pre s : blank pre -> lstrip (pre ++ s) = lstrip s.
Proof.
  induction 1 as [|c pre Hc _ IH]; simpl; [done|]. by rewrite Hc.
Qed.

Lemma lstrip_blank s : blank s -> lstrip s = [].
Proof.
  intros H. rewrite <- (app_nil_r s). by rewrite lstrip_blank_app.
Qed.

Lemma lstrip_split s : exists pre, s = pre ++ lstrip s /\ blank pre.
Proof.
  induction s as [|c s [pre [E B]]]; simpl.
  - exists []. split; [done | constructor].
  - destruct (isspace c) eqn:Hc.
    + exists (c :: pre). split; [by rewrite <- app_comm_cons, <- E|].
      by constructor.
    + exists []. split; [done | constructor].
Qed.

Lemma lstrip_head s c r : lstrip s = c :: r -> isspace c = false.
Proof.
  induction s as [|d s IH]; simpl; [done|].
  destruct (isspace d) eqn:Hd; [done|]. by intros [= <- _].
Qed.

Lemma lstrip_snoc s c :
  isspace c = false -> lstrip (s ++ [c]) = lstrip s ++ [c].
Proof.
  intros Hc. induction s as [|d s IH]; simpl; [by rewrite Hc|].
  by destruct (isspace d).
Qed.

Lemma rstrip_blank_app s post : blank post -> rstrip (s ++ post) = rstrip s.
Proof.
  intros H. unfold rstrip. rewrite rev_app_distr.
  rewrite lstrip_blank_app; [done|]. by apply Forall_rev.
Qed.

Lemma rstrip_split s : exists post, s = rstrip s ++ post /\ blank post.
Proof.
  unfold rstrip. destruct (lstrip_split (rev s)) as [pre [E B]].
  exists (rev pre). split; [|by apply Forall_rev].
  rewrite <- rev_app_distr, <- E. by rewrite rev_involutive.
Qed.

Lemma rstrip_last s c r : rstrip s = r ++ [c] -> isspace c = false.
Proof.
  unfold rstrip. intros E. apply (f_equal (@rev Z)) in E.
  rewrite rev_involutive, rev_app_distr in E. simpl in E.
  by eapply lstrip_head.
Qed.

Lemma rstrip_cons c r : isspace c = false -> rstrip (c :: r) = c :: rstrip r.
Proof.
  intros Hc. unfold rstrip. simpl. rewrite lstrip_snoc by done.
  by rewrite rev_app_distr.
Qed.

Lemma rstrip_fixed r c : isspace c = false -> rstrip (r ++ [c]) = r ++ [c].
Proof.
  intros Hc. unfold rstrip. rewrite rev_app_distr. simpl. rewrite Hc.
  simpl. by rewrite rev_involutive.
Qed.

Lemma rstrip_head s c r : rstrip s = c :: r -> exists r', s = c :: r'.
Proof.
  destruct (rstrip_split s) as [post [E _]]. intros H. rewrite H in E.
  by exists (r ++ post).
Qed.

(** [strip] does what the specification calls trimming. *)
Lemma strip_trimmed s : trimmed s (strip s).
Proof.
  unfold strip. destruct (lstrip_split s) as [pre [E1 B1]].
  destruct (rstrip_split (lstrip s)) as [post [E2 B2]].
  exists pre, post. split; [by rewrite <- E2|]. do 2 (split; [done|]).
  split.
  - intros c r H. destruct (rstrip_head _ _ _ H) as [r' E].
    by eapply lstrip_head.
  - intros c r H. by eapply rstrip_last.
Qed.

(** Trimming has one result. *)
Lemma trimmed_strip s t : trimmed s t -> t = strip s.
Proof.
  intros (pre & post & -> & Bpre & Bpost & Hh & Hl). unfold strip.
  rewrite lstrip_blank_app by done.
  destruct t as [|c r]; simpl.
  - by rewrite lstrip_blank.
  - rewrite (Hh c r eq_refl). rewrite app_comm_cons.
    rewrite rstrip_blank_app by done.
    destruct (exists_last (l := c :: r)) as [r' [d E]]; [done|].
    rewrite E. symmetry. apply rstrip_fixed. by eapply Hl.
Qed.

Lemma strip_blank s : blank s -> strip s = [].
Proof. intros H. unfold strip. by rewrite lstrip_blank. Qed.

(** A slice that only gives a non-negative upper bound is a prefix. *)
Lemma slice_upto s n : 0 <= n -> slice s None (Some n) = take (Z.to_nat n) s.
Proof.
  intros Hn. unfold slice, clip. simpl. rewrite drop_0.
  destruct (n <? 0) eqn:E; [lia|].
  destruct (Z.le_gt_cases n (len s)) as [Hle|Hgt].
  - by rewrite Z.min_l.
  - rewrite Z.min_r by lia. unfold len in *. rewrite Nat2Z.id.
    rewrite !take_ge; [done | lia | lia].
Qed.

(** Whatever the bounds, a slice keeps only characters of the string. *)
Lemma slice_Forall (P : Z -> Prop) s lo hi : Forall P s -> Forall P (slice s lo hi).
Proof. intros H. unfold slice. by apply Forall_drop, Forall_take. Qed.

(** ** The sanitizer *)

Section SanitizerFacts.

Variable u : Z -> bool.

Lemma safe_filename_unfold s maxlen :
  safe_filename u s maxlen
  = or_str (slice (sanitized_text u s) None (Some maxlen)) (py "output").
Proof. reflexivity. Qed.

Lemma str_or_empty_default s : str_or_empty s = default [] s.
Proof. by destruct s as [[|c r]|]. Qed.

Lemma sub_unsafe_filter s : sub_unsafe u s = List.filter (allowed u) s.
Proof.
  induction s as [|c s IH]; simpl; [done|].
  unfold unsafe. fold (allowed u c). destruct (allowed u c); simpl; by rewrite IH.
Qed.

Lemma sub_spaces_blank ws r :
  blank ws -> sub_spaces true (ws ++ r) = sub_spaces true r.
Proof. induction 1 as [|c ws Hc _ IH]; simpl; [done|]. by rewrite Hc. Qed.

Lemma sub_spaces_resume r :
  (forall c r', r = c :: r' -> isspace c = false) ->
  sub_spaces true r = sub_spaces false r.
Proof.
  destruct r as [|c r]; [done|]. intros H. simpl.
  by rewrite (H c r eq_refl).
Qed.

Lemma sub_spaces_run ws r :
  ws <> [] -> blank ws ->
  (forall c r', r = c :: r' -> isspace c = false) ->
  sub_spaces false (ws ++ r) = UNDERSCORE :: sub_spaces false r.
Proof.
  intros Hne Hb Hr. destruct Hb as [|c ws Hc Hws]; [done|]. simpl.
  rewrite Hc. by rewrite sub_spaces_blank, sub_spaces_resume.
Qed.

Lemma sub_spaces_collapsed_upto n s :
  (length s <= n)%nat -> collapsed s (sub_spaces false s).
Proof.
  revert s. induction n as [|n IH]; intros s Hn.
  - destruct s; [constructor | simpl in Hn; lia].
  - destruct s as [|c r]; [constructor|].
    destruct (isspace c) eqn:Hc.
    + destruct (lstrip_split (c :: r)) as [pre [E B]].
      assert (Hr : forall d r', lstrip (c :: r) = d :: r' -> isspace d = false)
        by (intros d r'; apply lstrip_head).
      assert (Hpre : pre <> []).
      { intros ->. simpl in E. rewrite Hc in E.
        destruct (lstrip_split r) as [p [E' _]].
        apply (f_equal (@length Z)) in E, E'. rewrite length_app in E'.
        simpl in E. lia. }
      assert (Hlen : (length (lstrip (c :: r)) <= n)%nat).
      { apply (f_equal (@length Z)) in E. rewrite length_app in E.
        destruct pre; [done|]. simpl in *. lia. }
      revert E Hr Hlen. generalize (lstrip (c :: r)). intros t E Hr Hlen.
      rewrite E, sub_spaces_run by done.
      apply collapsed_run; auto.
    + simpl. rewrite Hc. apply collapsed_char; [done|].
      apply IH. simpl in Hn. lia.
Qed.

(** [sub_spaces] replaces every maximal run of whitespace by a single
    underscore, and nothing else does. *)
Lemma sub_spaces_collapsed s : collapsed s (sub_spaces false s).
Proof. by apply (sub_spaces_collapsed_upto (length s)). Qed.

Lemma collapsed_sub_spaces s t : collapsed s t -> t = sub_spaces false s.
Proof.
  induction 1 as [|c r t Hc _ IH|ws r t Hne Hb Hr _ IH].
  - done.
  - simpl. by rewrite Hc, IH.
  - by rewrite sub_spaces_run, IH.
Qed.

Lemma sub_spaces_clean b s :
  Forall (fun c => allowed u c = true) s -> Forall (clean u) (sub_spaces b s).
Proof.
  intros H. revert b. induction H as [|c s Hc _ IH]; intros b; simpl.
  - constructor.
  - destruct (isspace c) eqn:Hs.
    + destruct b; [apply IH|]. constructor; [|apply IH].
      split; [left|]; by vm_compute.
    + constructor; [|apply IH]. split; [|done].
      unfold allowed in Hc. rewrite Hs, orb_false_r in Hc.
      apply orb_true_iff in Hc as [Hc|Hc]; [by left|right].
      by apply Z.eqb_eq.
Qed.

Lemma sanitized_text_clean s : Forall (clean u) (sanitized_text u s).
Proof.
  apply sub_spaces_clean. rewrite sub_unsafe_filter.
  apply List.Forall_forall. intros c Hc. by apply filter_In in Hc as [_ Hc].
Qed.

End SanitizerFacts.

(** ** Splitting at the first separator, and quotes *)

Lemma contains_app c a b : contains c (a ++ b) = contains c a || contains c b.
Proof. apply existsb_app. Qed.

Lemma contains_cons_eq c b : contains c (c :: b) = true.
Proof. simpl. by rewrite Z.eqb_refl. Qed.

Lemma split1_app c a b :
  contains c a = false -> split1 c (a ++ c :: b) = Some (a, b).
Proof.
  induction a as [|x a IH]; simpl.
  - by rewrite Z.eqb_refl.
  - intros H. apply orb_false_iff in H as [Hx Ha].
    rewrite Z.eqb_sym in Hx. by rewrite Hx, IH.
Qed.

Lemma split1_Some c s a b :
  split1 c s = Some (a, b) -> s = a ++ c :: b /\ contains c a = false.
Proof.
  revert a. induction s as [|x s IH]; intros a; simpl; [done|].
  destruct (x =? c) eqn:Hx.
  - intros [= <- <-]. apply Z.eqb_eq in Hx as ->. by split.
  - destruct (split1 c s) as [[a' b']|]; [|done].
    intros [= <- <-]. destruct (IH a' eq_refl) as [-> Ha].
    split; [done|]. simpl. by rewrite Z.eqb_sym, Hx, Ha.
Qed.

Lemma split1_None c s : split1 c s = None -> contains c s = false.
Proof.
  induction s as [|x s IH]; simpl; [done|].
  destruct (x =? c) eqn:Hx; [done|].
  destruct (split1 c s) as [[a b]|]; [done|].
  intros _. by rewrite Z.eqb_sym, Hx, IH.
Qed.

(** Line 48 indexes [val] only where it has characters. *)
Lemma quoted_indices val :
  2 <= len val -> is_Some (getitem val 0) /\ is_Some (getitem val (-1)).
Proof.
  unfold getitem, len. intros H. simpl.
  destruct (0 <=? Z.of_nat (length val) + -1) eqn:E; [|lia].
  split; apply lookup_lt_is_Some; lia.
Qed.

Lemma getitem_last l b : getitem (l ++ [b]) (-1) = Some b.
Proof.
  unfold getitem, len. simpl. rewrite length_app. simpl.
  destruct (0 <=? _) eqn:E; [|apply Z.leb_gt in E; lia].
  replace (Z.to_nat _) with (length l) by lia.
  apply list_lookup_middle. done.
Qed.

Lemma getitem_first a r : getitem (a :: r) 0 = Some a.
Proof. reflexivity. Qed.

Lemma slice_inner q inner q' :
  slice (q :: inner ++ [q']) (Some 1) (Some (-1)) = inner.
Proof.
  unfold slice, clip, len. simpl. rewrite length_app. simpl.
  replace (Z.to_nat (Z.min 1 _)) with 1%nat by lia.
  replace (Z.to_nat (Z.max _ 0)) with (S (length inner)) by lia.
  simpl. rewrite drop_0. by rewrite take_app_length.
Qed.

Lemma wrapped_quoted val inner : wrapped val inner -> quoted val = true.
Proof.
  intros (q & Hq & ->). unfold quoted.
  rewrite app_comm_cons, getitem_last. simpl app. rewrite getitem_first.
  apply andb_true_iff. split.
  - apply Z.leb_le. unfold len. simpl. rewrite length_app. simpl. lia.
  - rewrite Z.eqb_refl. by destruct Hq as [-> | ->].
Qed.

Lemma quoted_wrapped val : quoted val = true -> exists inner, wrapped val inner.
Proof.
  unfold quoted. intros H. apply andb_true_iff in H as [Hlen H].
  destruct val as [|a r]; [done|].
  destruct (exists_last (l := r)) as [inner [b ->]].
  { intros ->. by vm_compute in Hlen. }
  rewrite app_comm_cons, getitem_last in H. simpl app in H.
  rewrite getitem_first in H.
  apply andb_true_iff in H as [Hab Hq]. apply Z.eqb_eq in Hab as <-.
  exists inner, a. split; [|done].
  apply orb_true_iff in Hq as [Hq|Hq]; apply Z.eqb_eq in Hq; auto.
Qed.

(** [unquote] removes exactly the outer quote pair of a wrapped value, and
    leaves every other value as it is. *)
Lemma unquote_wrapped val inner : wrapped val inner -> unquote val = inner.
Proof.
  intros H. unfold unquote. rewrite (wrapped_quoted _ _ H).
  destruct H as (q & _ & ->). apply slice_inner.
Qed.

Lemma unquote_not_wrapped val :
  ~ (exists inner, wrapped val inner) -> unquote val = val.
Proof.
  intros H. unfold unquote. destruct (quoted val) eqn:E; [|done].
  destruct H. by apply quoted_wrapped.
Qed.

(** ** One line of the KV file *)

Lemma kv_line_skipped lineno raw data :
  blank raw \/ (exists r, lstrip raw = HASH :: r) ->
  kv_line lineno raw data = ([], inr data).
Proof.
  intros [H|[r H]]; unfold kv_line.
  - by rewrite strip_blank.
  - unfold strip. rewrite H, rstrip_cons by done.
    by rewrite orb_true_r.
Qed.

Lemma kv_line_invalid lineno raw data :
  invalid raw ->
  kv_line lineno raw data = ([Stderr (warning lineno (strip raw))], inr data).
Proof.
  intros (H1 & H2 & H3). unfold kv_line.
  rewrite bool_decide_eq_false_2, H2, H3 by done. reflexivity.
Qed.

Lemma kv_line_valid lineno raw data a b :
  strip raw = a ++ EQUALS :: b ->
  contains EQUALS a = false ->
  startswith (py "#") (strip raw) = false ->
  kv_line lineno raw data = ([], inr (<[strip a := unquote (strip b)]> data)).
Proof.
  intros E Ha Hc. unfold kv_line. rewrite Hc, E.
  rewrite bool_decide_eq_false_2 by (by destruct a).
  rewrite contains_app, contains_cons_eq, orb_true_r. simpl negb. cbv iota.
  simpl orb. cbv iota. by rewrite split1_app.
Qed.

(** The loop body never raises: it stores the pair of the line, if any, and
    prints at most a warning. *)
Lemma kv_line_store lineno raw data :
  kv_line lineno raw data
  = (trace (kv_line lineno raw ∅), inr (store (line_pair raw) data)).
Proof.
  unfold kv_line, line_pair.
  destruct (bool_decide (strip raw = []) || startswith (py "#") (strip raw))
    eqn:E1; [done|].
  destruct (contains EQUALS (strip raw)) eqn:E2; simpl.
  - destruct (split1 EQUALS (strip raw)) as [[a b]|] eqn:E3; [done|].
    apply split1_None in E3. congruence.
  - destruct (split1 EQUALS (strip raw)) as [[a b]|] eqn:E3; [|done].
    apply split1_Some in E3 as [E3 _]. rewrite E3, contains_app in E2.
    by rewrite contains_cons_eq, orb_true_r in E2.
Qed.

Lemma line_pair_invalid raw : invalid raw -> line_pair raw = None.
Proof.
  intros (H1 & H2 & H3). unfold line_pair.
  rewrite bool_decide_eq_false_2, H2 by done. simpl.
  destruct (split1 EQUALS (strip raw)) as [[a b]|] eqn:E; [|done].
  apply split1_Some in E as [E _]. rewrite E, contains_app in H3.
  by rewrite contains_cons_eq, orb_true_r in H3.
Qed.

Lemma line_pair_skipped raw :
  blank raw \/ (exists r, lstrip raw = HASH :: r) -> line_pair raw = None.
Proof.
  intros [H|[r H]]; unfold line_pair.
  - by rewrite strip_blank.
  - unfold strip. rewrite H, rstrip_cons by done. by rewrite orb_true_r.
Qed.

(** ** The whole file *)

(** The loop never raises either. *)
Lemma kv_loop_run lineno lines data :
  kv_loop lineno lines data
  = (trace (kv_loop lineno lines ∅), inr (kv_result lines data)).
Proof.
  revert lineno data. induction lines as [|raw rest IH]; intros n d; [done|].
  simpl kv_loop. rewrite (kv_line_store n raw d), (kv_line_store n raw ∅).
  unfold bind. rewrite (IH (n + 1) (store _ d)), (IH (n + 1) (store _ ∅)).
  reflexivity.
Qed.

Lemma kv_loop_trace_cons lineno raw rest :
  trace (kv_loop lineno (raw :: rest) ∅)
  = trace (kv_line lineno raw ∅) ++ trace (kv_loop (lineno + 1) rest ∅).
Proof.
  simpl kv_loop. rewrite (kv_line_store lineno raw ∅). unfold bind.
  by rewrite kv_loop_run.
Qed.

Lemma kv_loop_trace_app lineno l1 l2 :
  trace (kv_loop lineno (l1 ++ l2) ∅)
  = trace (kv_loop lineno l1 ∅) ++ trace (kv_loop (lineno + Z.of_nat (length l1)) l2 ∅).
Proof.
  revert lineno. induction l1 as [|raw l1 IH]; intros n.
  - simpl. by rewrite Z.add_0_r.
  - rewrite <- app_comm_cons, !kv_loop_trace_cons, IH, <- app_assoc.
    replace (n + Z.of_nat (length (raw :: l1)))
      with (n + 1 + Z.of_nat (length l1)) by (simpl length; lia).
    done.
Qed.

Lemma kv_result_app l1 l2 data :
  kv_result (l1 ++ l2) data = kv_result l2 (kv_result l1 data).
Proof. apply foldl_app. Qed.

Lemma kv_result_other_keys lines data k :
  Forall (fun raw => forall v, line_pair raw <> Some (k, v)) lines ->
  kv_result lines data !! k = data !! k.
Proof.
  intros H. revert data. induction H as [|raw rest Hraw _ IH]; intros d.
  - done.
  - change (kv_result (raw :: rest) d)
      with (kv_result rest (store (line_pair raw) d)).
    rewrite IH. destruct (line_pair raw) as [[k' v']|]; [|done]. simpl.
    apply lookup_insert_ne. intros ->. by eapply Hraw.
Qed.

Lemma parse_kv_file_text w path content :
  fs w path = Text content ->
  parse_kv_file w path
  = (Open path :: trace (kv_loop 1 (readlines content) ∅),
     inr (kv_result (readlines content) ∅)).
Proof.
  intros H. unfold parse_kv_file, path_exists, open_text. rewrite H.
  simpl. rewrite kv_loop_run. simpl. by rewrite app_nil_r.
Qed.

Lemma parse_kv_file_absent w path :
  fs w path = Absent ->
  parse_kv_file w path
  = ([], inl (FileNotFoundError (py "KV file not found: " ++ path))).
Proof. intros H. unfold parse_kv_file, path_exists. by rewrite H. Qed.

Lemma parse_kv_file_not_text w path err :
  fs w path = NotText err ->
  parse_kv_file w path = ([Open path], inl (OSError err)).
Proof.
  intros H. unfold parse_kv_file, path_exists, open_text. by rewrite H.
Qed.

(** A file that stops decoding: its lines are parsed, then the error is
    raised and the mapping is lost. *)
Lemma parse_kv_file_garbled w path lines err :
  fs w path = Garbled lines err ->
  parse_kv_file w path
  = (Open path :: trace (kv_loop 1 lines ∅), inl (UnicodeDecodeError err)).
Proof.
  intros H. unfold parse_kv_file, path_exists, open_text. rewrite H.
  simpl. rewrite kv_loop_run. simpl. by rewrite app_nil_r.
Qed.

(** ** The parser's claims *)

Lemma line_pair_valid raw a b :
  strip raw = a ++ EQUALS :: b ->
  contains EQUALS a = false ->
  startswith (py "#") (strip raw) = false ->
  line_pair raw = Some (strip a, unquote (strip b)).
Proof.
  intros E Ha Hc. unfold line_pair. rewrite Hc, E.
  rewrite bool_decide_eq_false_2 by (by destruct a).
  simpl orb. cbv iota. by rewrite split1_app.
Qed.

(** The parse of a text file around one of its lines: the lines before,
    then the line, then the lines after, with the line numbers going on. *)
Lemma parse_kv_file_around w path content l1 raw l2 :
  fs w path = Text content ->
  readlines content = l1 ++ raw :: l2 ->
  parse_kv_file w path
  = (Open path :: trace (kv_loop 1 l1 ∅)
       ++ trace (kv_line (1 + Z.of_nat (length l1)) raw ∅)
       ++ trace (kv_loop (2 + Z.of_nat (length l1)) l2 ∅),
     inr (kv_result l2 (store (line_pair raw) (kv_result l1 ∅)))).
Proof.
  intros Hf Hl. rewrite (parse_kv_file_text _ _ _ Hf), Hl.
  rewrite kv_loop_trace_app, kv_loop_trace_cons, kv_result_app.
  replace (1 + Z.of_nat (length l1) + 1) with (2 + Z.of_nat (length l1)) by lia.
  reflexivity.
Qed.

(** C3: the parser maps every line of the file that is not skipped (its
    trimmed text has an equals sign and does not start with a hash): the
    result of parsing the file is the mapping of the lines before it, with
    the trimmed text before the first equals sign mapped to the trimmed text
    after it, followed by the lines after it; that key has that value in the
    result unless a later line gives it again.  The value loses its outer
    quote pair exactly when it is wrapped in matching single or double
    quotes.  A file with the double-quoted [quoted value] or the
    single-quoted [x] under KEY parses to that value without the quotes. *)
Theorem parse_maps_line (w : world) (path content : pystr)
    (l1 : list pystr) (raw : pystr) (l2 : list pystr) (a b : pystr) :
  fs w path = Text content ->
  readlines content = l1 ++ raw :: l2 ->
  strip raw = a ++ EQUALS :: b ->
  contains EQUALS a = false ->
  startswith (py "#") (strip raw) = false ->
  (exists val data,
     (forall inner, wrapped (strip b) inner -> val = inner) /\
     (~ (exists inner, wrapped (strip b) inner) -> val = strip b) /\
     snd (parse_kv_file w path) = inr data /\
     data = kv_result l2 (<[strip a := val]> (kv_result l1 ∅)) /\
     (Forall (fun later => forall v, line_pair later <> Some (strip a, v)) l2 ->
      data !! strip a = Some val) /\
     (forall lineno d,
        kv_line lineno raw d = ([], inr (<[strip a := val]> d)))) /\
  (forall w' p,
     fs w' p = Text (py "KEY=" ++ [DQUOTE] ++ py "quoted value" ++ [DQUOTE]) ->
     parse_kv_file w' p = ([Open p], inr {[ py "KEY" := py "quoted value" ]})) /\
  (forall w' p,
     fs w' p = Text (py "KEY='x'") ->
     parse_kv_file w' p = ([Open p], inr {[ py "KEY" := py "x" ]})).
Proof.
  intros Hf Hl E Ha Hc. split; [|split].
  - exists (unquote (strip b)), (kv_result l2 (<[strip a := unquote (strip b)]> (kv_result l1 ∅))).
    split; [intros inner H; by apply unquote_wrapped|].
    split; [apply unquote_not_wrapped|].
    split; [|split; [done|split]].
    + rewrite (parse_kv_file_around _ _ _ _ _ _ Hf Hl).
      by rewrite (line_pair_valid _ _ _ E Ha Hc).
    + intros Hlater. rewrite kv_result_other_keys by done.
      apply lookup_insert_eq.
    + intros lineno d. by apply kv_line_valid.
  - intros w' p H. rewrite (parse_kv_file_text _ _ _ H). by vm_compute.
  - intros w' p H. rewrite (parse_kv_file_text _ _ _ H). by vm_compute.
Qed.

Lemma parse_maps_line_witness :
  let content := py "A=1" ++ [NL] ++ py "  NAME = 'John Doe'  " ++ [NL]
                 ++ py "B=2" in
  let w := sample_world [(py "data.txt", Text content)] None in
  let raw := py "  NAME = 'John Doe'  " ++ [NL] in
  fs w (py "data.txt") = Text content /\
  readlines content = [py "A=1" ++ [NL]] ++ raw :: [py "B=2"] /\
  strip raw = py "NAME " ++ EQUALS :: py " 'John Doe'" /\
  contains EQUALS (py "NAME ") = false /\
  startswith (py "#") (strip raw) = false /\
  exists data,
    snd (parse_kv_file w (py "data.txt")) = inr data /\
    data !! py "NAME" = Some (py "John Doe").
Proof.
  intros content w raw. do 5 (split; [reflexivity|]).
  destruct (parse_maps_line w (py "data.txt") content [py "A=1" ++ [NL]] raw
              [py "B=2"] (py "NAME ") (py " 'John Doe'"))
    as [(val & data & Hw & _ & Hp & _ & Hk & _) _]; [reflexivity..|].
  exists data. split; [exact Hp|].
  assert (Hv : val = py "John Doe").
  { apply Hw. exists SQUOTE. split; [by left | reflexivity]. }
  rewrite <- Hv. apply Hk.
  repeat constructor. intros v H. vm_compute in H. congruence.
Defined.

(** C6: parsing the five-line example gives exactly A, B and C with their
    values; its third and fourth lines contribute nothing and the others
    their pair.  In general a blank line and a line whose first
    non-whitespace character is a hash are skipped: nothing is stored and
    nothing is printed. *)
Theorem parse_five_lines (w : world) (path : pystr) (lineno : Z) (raw : pystr)
    (data : gmap pystr pystr) :
  fs w path = Text five_lines ->
  blank raw \/ (exists r, lstrip raw = HASH :: r) ->
  parse_kv_file w path
  = ([Open path],
     inr {[ py "A" := py "1"; py "B" := py "2"; py "C" := py "3" ]}) /\
  map line_pair (readlines five_lines)
  = [Some (py "A", py "1"); Some (py "B", py "2"); None; None;
     Some (py "C", py "3")] /\
  kv_line lineno raw data = ([], inr data) /\
  line_pair raw = None.
Proof.
  intros Hf Hraw. split; [|split; [by vm_compute|split]].
  - rewrite (parse_kv_file_text _ _ _ Hf). by vm_compute.
  - by apply kv_line_skipped.
  - by apply line_pair_skipped.
Qed.

Lemma parse_five_lines_witness :
  let w := sample_world [(py "data.txt", Text five_lines)] None in
  let raw := py "   # FIRSTNAME=John" ++ [NL] in
  fs w (py "data.txt") = Text five_lines /\
  (blank raw \/ (exists r, lstrip raw = HASH :: r)) /\
  parse_kv_file w (py "data.txt")
  = ([Open (py "data.txt")],
     inr {[ py "A" := py "1"; py "B" := py "2"; py "C" := py "3" ]}) /\
  kv_line 3 raw {[ py "A" := py "1" ]} = ([], inr {[ py "A" := py "1" ]}).
Proof.
  intros w raw.
  assert (Hf : fs w (py "data.txt") = Text five_lines) by reflexivity.
  assert (Hraw : blank raw \/ (exists r, lstrip raw = HASH :: r))
    by (right; eexists; reflexivity).
  split; [exact Hf|]. split; [exact Hraw|].
  destruct (parse_five_lines w (py "data.txt") 3 raw {[ py "A" := py "1" ]}
              Hf Hraw) as (H1 & _ & H3 & _).
  split; [exact H1 | exact H3].
Defined.

(** C7: a line that is not blank, not a comment and has no equals sign
    prints a warning with its number and text, stores nothing and does not
    stop the parse: the file parses to the same mapping as the file without
    that line. *)
Theorem invalid_line_warns (w w' : world) (path content content' : pystr)
    (l1 : list pystr) (raw : pystr) (l2 : list pystr) :
  fs w path = Text content ->
  readlines content = l1 ++ raw :: l2 ->
  fs w' path = Text content' ->
  readlines content' = l1 ++ l2 ->
  invalid raw ->
  exists data,
    snd (parse_kv_file w path) = inr data /\
    snd (parse_kv_file w' path) = inr data /\
    In (Stderr (warning (1 + Z.of_nat (length l1)) (strip raw)))
       (trace (parse_kv_file w path)) /\
    (forall n d, kv_line n raw d = ([Stderr (warning n (strip raw))], inr d)) /\
    line_pair raw = None.
Proof.
  intros Hf Hl Hf' Hl' Hraw.
  rewrite (parse_kv_file_text _ _ _ Hf), (parse_kv_file_text _ _ _ Hf').
  rewrite Hl, Hl'. exists (kv_result (l1 ++ l2) ∅). simpl snd.
  split; [|split; [done|split; [|split]]].
  - rewrite !kv_result_app.
    change (kv_result (raw :: l2) (kv_result l1 ∅))
      with (kv_result l2 (store (line_pair raw) (kv_result l1 ∅))).
    by rewrite line_pair_invalid.
  - unfold trace at 1. simpl fst. right.
    rewrite kv_loop_trace_app, kv_loop_trace_cons.
    rewrite (kv_line_invalid _ _ _ Hraw). apply in_or_app. right. by left.
  - intros n d. by apply kv_line_invalid.
  - by apply line_pair_invalid.
Qed.

Lemma invalid_line_warns_witness :
  let content := py "A=1" ++ [NL] ++ py "  no equals here " ++ [NL] ++ py "B=2" in
  let content' := py "A=1" ++ [NL] ++ py "B=2" in
  let w := sample_world [(py "data.txt", Text content)] None in
  let w' := sample_world [(py "data.txt", Text content')] None in
  let raw := py "  no equals here " ++ [NL] in
  fs w (py "data.txt") = Text content /\
  readlines content = [py "A=1" ++ [NL]] ++ raw :: [py "B=2"] /\
  fs w' (py "data.txt") = Text content' /\
  readlines content' = [py "A=1" ++ [NL]] ++ [py "B=2"] /\
  invalid raw /\
  exists data,
    snd (parse_kv_file w (py "data.txt")) = inr data /\
    snd (parse_kv_file w' (py "data.txt")) = inr data /\
    In (Stderr (py "Warning: skipping invalid line 2: no equals here"))
       (trace (parse_kv_file w (py "data.txt"))).
Proof.
  intros content content' w w' raw.
  assert (Hraw : invalid raw) by (by vm_compute).
  do 4 (split; [reflexivity|]). split; [exact Hraw|].
  destruct (invalid_line_warns w w' (py "data.txt") content content'
              [py "A=1" ++ [NL]] raw [py "B=2"])
    as (data & H1 & H2 & H3 & _); [reflexivity.. | exact Hraw |].
  exists data. split; [exact H1|]. split; [exact H2 | exact H3].
Defined.

(** C8: when a key occurs on several valid lines the parse succeeds and the
    key has the value of the last of them; keys that differ only in case are
    different keys. *)
Theorem last_occurrence_wins (w : world) (path content : pystr)
    (l1 : list pystr) (raw : pystr) (l2 : list pystr) (key val : pystr) :
  fs w path = Text content ->
  readlines content = l1 ++ raw :: l2 ->
  line_pair raw = Some (key, val) ->
  Forall (fun later => forall v, line_pair later <> Some (key, v)) l2 ->
  (exists data,
     snd (parse_kv_file w path) = inr data /\ data !! key = Some val) /\
  kv_result (readlines (py "Name=a" ++ [NL] ++ py "name=b" ++ [NL]
                          ++ py "Name=c")) ∅
  = {[ py "Name" := py "c"; py "name" := py "b" ]}.
Proof.
  intros Hf Hl Hraw Hlater. split; [|by vm_compute].
  rewrite (parse_kv_file_text _ _ _ Hf), Hl. eexists. split; [done|].
  rewrite kv_result_app.
  change (kv_result (raw :: l2) (kv_result l1 ∅))
    with (kv_result l2 (store (line_pair raw) (kv_result l1 ∅))).
  rewrite kv_result_other_keys by done. rewrite Hraw. simpl.
  apply lookup_insert_eq.
Qed.

Lemma last_occurrence_wins_witness :
  let content := py "K=1" ++ [NL] ++ py "K = 2" ++ [NL] ++ py "J=3" in
  let w := sample_world [(py "data.txt", Text content)] None in
  fs w (py "data.txt") = Text content /\
  readlines content = [py "K=1" ++ [NL]] ++ (py "K = 2" ++ [NL]) :: [py "J=3"] /\
  line_pair (py "K = 2" ++ [NL]) = Some (py "K", py "2") /\
  Forall (fun later => forall v, line_pair later <> Some (py "K", v)) [py "J=3"] /\
  exists data,
    snd (parse_kv_file w (py "data.txt")) = inr data /\
    data !! py "K" = Some (py "2").
Proof.
  intros content w.
  assert (Hl : Forall (fun later => forall v, line_pair later <> Some (py "K", v))
                 [py "J=3"]).
  { repeat constructor. intros v H. vm_compute in H. congruence. }
  do 3 (split; [reflexivity|]). split; [exact Hl|].
  destruct (last_occurrence_wins w (py "data.txt") content
              [py "K=1" ++ [NL]] (py "K = 2" ++ [NL]) [py "J=3"]
              (py "K") (py "2")) as [H _]; [reflexivity.. | exact Hl |].
  exact H.
Defined.

(** C9: the parser accepts a line whose trimmed text begins with an equals
    sign: parsing the file adds, at the place of the line, an entry whose key
    is the empty string and whose value is the trimmed text after the equals
    sign, unquoted; the line prints nothing, so the diagnostics are those of
    the lines before followed by those of the lines after; and the empty key
    has that value in the result unless a later line gives it again. *)
Theorem parse_accepts_empty_key (w : world) (path content : pystr)
    (l1 : list pystr) (raw : pystr) (l2 : list pystr) (b : pystr) :
  fs w path = Text content ->
  readlines content = l1 ++ raw :: l2 ->
  strip raw = EQUALS :: b ->
  exists data,
    parse_kv_file w path
    = (Open path :: trace (kv_loop 1 l1 ∅)
         ++ trace (kv_loop (2 + Z.of_nat (length l1)) l2 ∅),
       inr data) /\
    data = kv_result l2 (<[ [] := unquote (strip b) ]> (kv_result l1 ∅)) /\
    (Forall (fun later => forall v, line_pair later <> Some ([], v)) l2 ->
     data !! [] = Some (unquote (strip b))) /\
    (forall lineno d,
       kv_line lineno raw d = ([], inr (<[ [] := unquote (strip b) ]> d))).
Proof.
  intros Hf Hl E.
  assert (Hc : startswith (py "#") (strip raw) = false) by (by rewrite E).
  assert (Hv : forall lineno d,
            kv_line lineno raw d = ([], inr (<[ [] := unquote (strip b) ]> d)))
    by (intros; by apply (kv_line_valid _ raw _ [] b)).
  eexists. split; [|split; [reflexivity|split; [|done]]].
  - rewrite (parse_kv_file_around _ _ _ _ _ _ Hf Hl), Hv.
    by rewrite (line_pair_valid raw [] b E eq_refl Hc).
  - intros Hlater. rewrite kv_result_other_keys by done.
    apply lookup_insert_eq.
Qed.

Lemma parse_accepts_empty_key_witness :
  let content := py "A=1" ++ [NL] ++ py "  = 'v' " ++ [NL] ++ py "oops" in
  let w := sample_world [(py "data.txt", Text content)] None in
  let raw := py "  = 'v' " ++ [NL] in
  fs w (py "data.txt") = Text content /\
  readlines content = [py "A=1" ++ [NL]] ++ raw :: [py "oops"] /\
  strip raw = EQUALS :: py " 'v'" /\
  parse_kv_file w (py "data.txt")
  = ([Open (py "data.txt");
      Stderr (py "Warning: skipping invalid line 3: oops")],
     inr {[ py "A" := py "1"; [] := py "v" ]}).
Proof.
  intros content w raw. do 3 (split; [reflexivity|]).
  destruct (parse_accepts_empty_key w (py "data.txt") content
              [py "A=1" ++ [NL]] raw [py "oops"] (py " 'v'"))
    as (data & Hp & -> & _); [reflexivity..|].
  rewrite Hp. by vm_compute.
Defined.

(** C2: with a non-negative maximum length, [safe_filename] is the
    specification's sequence of steps, which has no other result: the input
    (nothing when absent) is trimmed, the characters that are neither word
    characters, whitespace nor hyphens are removed, every maximal run of
    whitespace becomes one underscore, the text is cut to the maximum length,
    and an empty result is replaced by output.  John Doe!! gives John_Doe;
    the empty string and an absent input give output. *)
Theorem safe_filename_sanitizes (u : Z -> bool) (s : option pystr) (maxlen : Z) :
  0 <= maxlen ->
  sanitizes u s maxlen (safe_filename u s maxlen) /\
  (forall r, sanitizes u s maxlen r -> r = safe_filename u s maxlen) /\
  safe_filename u (Some (py "John Doe!!")) default_maxlen = py "John_Doe" /\
  safe_filename u (Some []) default_maxlen = py "output" /\
  safe_filename u None default_maxlen = py "output".
Proof.
  intros Hmax.
  assert (E : forall t3, t3 = sanitized_text u s ->
            safe_filename u s maxlen
            = (if bool_decide (take (Z.to_nat maxlen) t3 = [])
               then py "output" else take (Z.to_nat maxlen) t3)).
  { intros t3 ->. rewrite safe_filename_unfold, slice_upto by done.
    destruct (take _ _); by case_bool_decide. }
  split; [|split; [|by repeat split]].
  - exists (strip (default [] s)), (List.filter (allowed u) (strip (default [] s))).
    exists (sanitized_text u s), (take (Z.to_nat maxlen) (sanitized_text u s)).
    split; [apply strip_trimmed|]. split; [done|]. split; [|split; [done|]].
    + unfold sanitized_text.
      rewrite str_or_empty_default, sub_unsafe_filter.
      apply sub_spaces_collapsed.
    + by apply E.
  - intros r (t1 & t2 & t3 & t4 & H1 & -> & H3 & -> & ->).
    apply trimmed_strip in H1 as ->. apply collapsed_sub_spaces in H3.
    symmetry. apply E. rewrite H3. unfold sanitized_text.
    by rewrite str_or_empty_default, sub_unsafe_filter.
Qed.

Lemma safe_filename_sanitizes_witness :
  0 <= 5 /\
  sanitizes latin1_isalnum (Some (py "  a, b   c-d e f  ")) 5
    (safe_filename latin1_isalnum (Some (py "  a, b   c-d e f  ")) 5) /\
  safe_filename latin1_isalnum (Some (py "  a, b   c-d e f  ")) 5 = py "a_b_c".
Proof.
  split; [lia|]. split; [|reflexivity].
  apply (safe_filename_sanitizes latin1_isalnum
           (Some (py "  a, b   c-d e f  ")) 5). lia.
Defined.

(** C5, as stated, fails: an input longer than the maximum length may be
    shorter once sanitized, and a maximum length of zero leaves nothing to
    return but the fallback. *)
Lemma safe_filename_longer_input_shorter_result :
  (2 < len (py "a!!") /\
   len (safe_filename latin1_isalnum (Some (py "a!!")) 2) <> 2) /\
  (0 < len (py "abc") /\
   len (safe_filename latin1_isalnum (Some (py "abc")) 0) <> 0).
Proof. vm_compute. repeat split; congruence. Qed.

(** C5, amended: when the sanitized text (the input trimmed, cleaned and
    with its whitespace runs replaced) is longer than a maximum length of at
    least one, the result is its first [maxlen] characters, of length exactly
    [maxlen]; for every maximum length the text is cut first and the fallback
    to output applies to what the cut leaves. *)
Theorem safe_filename_truncates (u : Z -> bool) (s : option pystr) (maxlen : Z) :
  1 <= maxlen ->
  maxlen < len (sanitized_text u s) ->
  safe_filename u s maxlen = take (Z.to_nat maxlen) (sanitized_text u s) /\
  len (safe_filename u s maxlen) = maxlen /\
  (forall m,
     safe_filename u s m
     = match slice (sanitized_text u s) None (Some m) with
       | [] => py "output"
       | c :: t => c :: t
       end).
Proof.
  intros H1 H2. rewrite safe_filename_unfold, slice_upto by lia.
  assert (L : length (take (Z.to_nat maxlen) (sanitized_text u s))
              = Z.to_nat maxlen).
  { rewrite length_take. unfold len in H2. lia. }
  destruct (take (Z.to_nat maxlen) (sanitized_text u s)) as [|c t] eqn:E.
  - simpl in L. lia.
  - simpl or_str. split; [done|]. split.
    + unfold len. rewrite L. lia.
    + intros m. rewrite safe_filename_unfold. by destruct (slice _ _ _).
Qed.

Lemma safe_filename_truncates_witness :
  1 <= 3 /\
  3 < len (sanitized_text latin1_isalnum (Some (py " ab  cd! "))) /\
  safe_filename latin1_isalnum (Some (py " ab  cd! ")) 3 = py "ab_" /\
  len (safe_filename latin1_isalnum (Some (py " ab  cd! ")) 3) = 3.
Proof.
  split; [lia|]. split; [by vm_compute|].
  destruct (safe_filename_truncates latin1_isalnum (Some (py " ab  cd! ")) 3)
    as (H1 & H2 & _); [lia | by vm_compute |].
  split; [exact H1 | exact H2].
Defined.

(** C10: for every input, absent or not, and every maximum length, the
    result of [safe_filename] is not empty, holds no whitespace, and holds
    only word characters and hyphens. *)
Theorem safe_filename_clean (u : Z -> bool) (s : option pystr) (maxlen : Z) :
  safe_filename u s maxlen <> [] /\
  Forall (fun c => isspace c = false) (safe_filename u s maxlen) /\
  Forall (fun c => isword u c = true \/ c = HYPHEN) (safe_filename u s maxlen).
Proof.
  assert (H : safe_filename u s maxlen <> [] /\
              Forall (clean u) (safe_filename u s maxlen)).
  { rewrite safe_filename_unfold.
    pose proof (slice_Forall _ _ None (Some maxlen) (sanitized_text_clean u s))
      as Hs.
    destruct (slice _ _ _) as [|c t]; simpl; [|done].
    split; [done|]. repeat constructor; by vm_compute. }
  destruct H as [Hne Hc]. split; [done|].
  split; eapply Forall_impl; try exact Hc; by intros c [? ?].
Qed.

(** ** The name of the output file *)

Lemma first_nonempty_none (ctx : gmap pystr pystr) (keys : list pystr) :
  (forall k, In k keys -> ctx !! k = None \/ ctx !! k = Some []) ->
  first_nonempty ctx keys = None.
Proof.
  induction keys as [|k ks IH]; intros H; [done|]. cbn [first_nonempty].
  destruct (H k (or_introl eq_refl)) as [-> | ->];
    apply IH; intros k' Hk'; apply H; by right.
Qed.

Lemma out_name_candidates u name ctx :
  truthy name = false ->
  out_name u name ctx
  = match first_nonempty ctx candidate_keys with
    | Some v => safe_filename u (Some v) default_maxlen
    | None => py "document"
    end ++ py ".docx".
Proof.
  intros Hn. unfold out_name, candidate_keys. rewrite Hn.
  cbn [first_nonempty].
  generalize (ctx !! py "FIRSTNAME") (ctx !! py "name") (ctx !! py "Name")
    (ctx !! py "FULLNAME") (ctx !! py "FULL_NAME").
  intros o1 o2 o3 o4 o5.
  destruct o1 as [[|? ?]|]; [|reflexivity|];
    (destruct o2 as [[|? ?]|]; [|reflexivity|]);
    (destruct o3 as [[|? ?]|]; [|reflexivity|]);
    (destruct o4 as [[|? ?]|]; [|reflexivity|]);
    (destruct o5 as [[|? ?]|]; reflexivity).
Qed.

(** C1, as stated, fails: a context may hold a candidate key and still give
    document.docx.  Here the file is the one line FIRSTNAME= and the key has
    the empty value. *)
Lemma out_name_document_with_candidate :
  let ctx := kv_result (readlines (py "FIRSTNAME=")) ∅ in
  ~ (out_name latin1_isalnum None ctx = py "document.docx" <->
     (forall k, In k candidate_keys -> ctx !! k = None)).
Proof.
  intros ctx [H _].
  assert (E : out_name latin1_isalnum None ctx = py "document.docx")
    by (by vm_compute).
  specialize (H E (py "FIRSTNAME") (or_introl eq_refl)).
  vm_compute in H. discriminate.
Qed.

(** C1, amended: when no output name is given, the file is named after the
    first value that is not empty among FIRSTNAME, name, Name, FULLNAME and
    FULL_NAME, in that order, sanitized and followed by .docx; it is
    document.docx when none of these keys has a value other than the empty
    string, so in particular when none of them exists.  A context with only
    LASTNAME=Smith gives document.docx and one with FIRSTNAME=Anna gives
    Anna.docx. *)
Theorem out_name_first_nonempty (u : Z -> bool) (name : option pystr)
    (ctx : gmap pystr pystr) :
  truthy name = false ->
  out_name u name ctx
  = match first_nonempty ctx candidate_keys with
    | Some v => safe_filename u (Some v) default_maxlen
    | None => py "document"
    end ++ py ".docx" /\
  ((forall k, In k candidate_keys -> ctx !! k = None \/ ctx !! k = Some []) ->
   out_name u name ctx = py "document.docx") /\
  out_name u name {[ py "LASTNAME" := py "Smith" ]} = py "document.docx" /\
  (ctx !! py "FIRSTNAME" = Some (py "Anna") ->
   out_name u name ctx = py "Anna.docx").
Proof.
  intros Hn. split; [by apply out_name_candidates|]. split; [|split].
  - intros H. by rewrite out_name_candidates, first_nonempty_none.
  - rewrite out_name_candidates by done. by vm_compute.
  - intros H. rewrite out_name_candidates by done.
    unfold candidate_keys. cbn [first_nonempty]. rewrite H. reflexivity.
Qed.

Lemma out_name_first_nonempty_witness :
  let ctx : gmap pystr pystr :=
    {[ py "FIRSTNAME" := []; py "Name" := py "Mary Ann"; py "FULLNAME" := py "x" ]} in
  truthy None = false /\
  out_name latin1_isalnum None ctx = py "Mary_Ann.docx".
Proof.
  intros ctx. split; [reflexivity|].
  destruct (out_name_first_nonempty latin1_isalnum None ctx) as [H _];
    [reflexivity|].
  rewrite H. by vm_compute.
Defined.

(** ** The exits of [main] *)

Section Exits.

Variable u : Z -> bool.

Lemma main_template_missing w a :
  template_missing w a ->
  main u w a
  = ([Mkdir (path_str w (outdir a));
      Stderr (py "Error: template not found: " ++ path_str w (template a))],
     inl (SystemExit 2)).
Proof. intros [H1 H2]. unfold main. by rewrite H1, H2. Qed.

Lemma main_kv_raises w a e :
  mkdir_error w (path_str w (outdir a)) = None ->
  path_exists w (path_str w (template a)) = true ->
  snd (parse_kv_file w (path_str w (kvfile a))) = inl e ->
  is_Exception e = true ->
  main u w a
  = (Mkdir (path_str w (outdir a))
       :: trace (parse_kv_file w (path_str w (kvfile a)))
       ++ [Stderr (py "Error reading kv file: " ++ exn_str e)],
     inl (SystemExit 3)).
Proof.
  intros H1 H2 H3 H4. unfold main. rewrite H1, H2.
  destruct (parse_kv_file w (path_str w (kvfile a))) as [t r].
  simpl in H3. subst r. unfold try_except. rewrite H4. reflexivity.
Qed.

Lemma main_kv_unreadable w a :
  kv_unreadable w a ->
  exists e,
    snd (parse_kv_file w (path_str w (kvfile a))) = inl e /\
    main u w a
    = (Mkdir (path_str w (outdir a))
         :: trace (parse_kv_file w (path_str w (kvfile a)))
         ++ [Stderr (py "Error reading kv file: " ++ exn_str e)],
       inl (SystemExit 3)).
Proof.
  intros (H1 & H2 & [H3 | [[err H3] | (lines & err & H3)]]).
  - eexists. rewrite (parse_kv_file_absent _ _ H3) at 1. split; [done|].
    apply main_kv_raises; try done. by rewrite (parse_kv_file_absent _ _ H3).
  - eexists. rewrite (parse_kv_file_not_text _ _ _ H3) at 1. split; [done|].
    apply main_kv_raises; try done.
    by rewrite (parse_kv_file_not_text _ _ _ H3).
  - eexists. rewrite (parse_kv_file_garbled _ _ _ _ H3) at 1. split; [done|].
    apply main_kv_raises; try done.
    by rewrite (parse_kv_file_garbled _ _ _ _ H3).
Qed.

Lemma main_generation_fails w a :
  generation_fails u w a -> snd (main u w a) = inl (SystemExit 4).
Proof.
  intros (H1 & H2 & ctx & err & H3 & H4). unfold main. rewrite H1, H2.
  destruct (parse_kv_file w (path_str w (kvfile a))) as [t r].
  simpl in H3. subst r. unfold try_except at 2. simpl.
  unfold generate_doc.
  destruct (bool_decide (ctx = ∅)); simpl; rewrite H4; reflexivity.
Qed.

End Exits.

(** C4: a missing template, an unreadable KV file (one that does not exist
    included) and a failing document generation end the process with the
    exit codes 2, 3 and 4, which are non-zero and pairwise distinct.  The
    template is checked first: when it is missing the process only makes the
    output directory and prints the error, and never opens the KV file. *)
Theorem main_exit_codes (u : Z -> bool) (w1 w2 w3 : world) (a1 a2 a3 : args) :
  template_missing w1 a1 ->
  kv_unreadable w2 a2 ->
  generation_fails u w3 a3 ->
  let c1 := exit_status (main u w1 a1) in
  let c2 := exit_status (main u w2 a2) in
  let c3 := exit_status (main u w3 a3) in
  (c1 = 2 /\ c2 = 3 /\ c3 = 4) /\
  (c1 <> 0 /\ c2 <> 0 /\ c3 <> 0 /\ c1 <> c2 /\ c2 <> c3 /\ c1 <> c3) /\
  main u w1 a1
  = ([Mkdir (path_str w1 (outdir a1));
      Stderr (py "Error: template not found: " ++ path_str w1 (template a1))],
     inl (SystemExit 2)) /\
  (forall p, ~ In (Open p) (trace (main u w1 a1))) /\
  (fs w2 (path_str w2 (kvfile a2)) = Absent ->
   In (Stderr (py "Error reading kv file: KV file not found: "
                 ++ path_str w2 (kvfile a2)))
      (trace (main u w2 a2))).
Proof.
  intros H1 H2 H3 c1 c2 c3.
  pose proof (main_template_missing u _ _ H1) as E1.
  destruct (main_kv_unreadable u _ _ H2) as (e & He & E2).
  pose proof (main_generation_fails u _ _ H3) as E3.
  assert (C : c1 = 2 /\ c2 = 3 /\ c3 = 4).
  { unfold c1, c2, c3, exit_status. by rewrite E1, E2, E3. }
  destruct C as (-> & -> & ->).
  split; [done|]. split; [repeat split; done|]. split; [done|]. split.
  - intros p. rewrite E1. simpl. by intros [?|[?|[]]].
  - intros Ha. rewrite (parse_kv_file_absent _ _ Ha) in He.
    injection He as <-. rewrite E2. right. apply in_or_app. right. by left.
Qed.

Lemma main_exit_codes_witness :
  let a := {| kvfile := py "data.txt"; template := py "letter.docx";
              outdir := py "output_docs"; name := None |} in
  let docx := (py "letter.docx", NotText (py "not a text file")) in
  let w1 := sample_world [(py "data.txt", Text (py "FIRSTNAME=Anna"))] None in
  let w2 := sample_world [docx] None in
  let w3 := sample_world [docx; (py "data.txt", Text (py "FIRSTNAME=Anna"))]
              (Some (py "unexpected tag")) in
  template_missing w1 a /\
  kv_unreadable w2 a /\
  generation_fails latin1_isalnum w3 a /\
  exit_status (main latin1_isalnum w1 a) = 2 /\
  exit_status (main latin1_isalnum w2 a) = 3 /\
  exit_status (main latin1_isalnum w3 a) = 4.
Proof.
  intros a docx w1 w2 w3.
  assert (H1 : template_missing w1 a) by (split; reflexivity).
  assert (H2 : kv_unreadable w2 a)
    by (split; [reflexivity|split; [reflexivity|left; reflexivity]]).
  assert (H3 : generation_fails latin1_isalnum w3 a).
  { split; [reflexivity|]. split; [reflexivity|].
    exists {[ py "FIRSTNAME" := py "Anna" ]}, (py "unexpected tag").
    split; [by vm_compute | reflexivity]. }
  do 3 (split; [assumption|]).
  destruct (main_exit_codes latin1_isalnum w1 w2 w3 a a a H1 H2 H3)
    as [(E1 & E2 & E3) _].
  split; [exact E1|]. split; [exact E2 | exact E3].
Defined.

(** * Further properties of the parser *)

Lemma strip_idemp s : strip (strip s) = strip s.
Proof.
  symmetry. apply trimmed_strip.
  destruct (strip_trimmed s) as (_ & _ & _ & _ & _ & Hn).
  exists [], []. split; [by rewrite app_nil_r|]. repeat split; try constructor.
  - apply Hn.
  - apply Hn.
Qed.

(** What one line prints: nothing, or the warning of an invalid line. *)
Lemma kv_line_trace lineno raw data :
  trace (kv_line lineno raw data) = [] \/
  (invalid raw /\
   trace (kv_line lineno raw data) = [Stderr (warning lineno (strip raw))]).
Proof.
  unfold kv_line.
  destruct (bool_decide (strip raw = [])) eqn:E1; [by left|].
  apply bool_decide_eq_false in E1.
  destruct (startswith (py "#") (strip raw)) eqn:E2; [by left|].
  destruct (contains EQUALS (strip raw)) eqn:E3; simpl.
  - left. by destruct (split1 EQUALS (strip raw)) as [[a b]|].
  - right. by repeat split.
Qed.

Lemma kv_loop_trace_events lineno lines ev :
  In ev (trace (kv_loop lineno lines ∅)) ->
  exists i raw,
    lines !! i = Some raw /\ invalid raw /\
    ev = Stderr (warning (lineno + Z.of_nat i) (strip raw)).
Proof.
  revert lineno. induction lines as [|raw rest IH]; intros n; [done|].
  rewrite kv_loop_trace_cons. intros H. apply in_app_or in H as [H|H].
  - destruct (kv_line_trace n raw ∅) as [E|[Hi E]]; rewrite E in H; [done|].
    destruct H as [<-|[]]. exists 0%nat, raw. rewrite Z.add_0_r.
    by split.
  - destruct (IH _ H) as (i & raw' & Hl & Hi & ->).
    exists (S i), raw'. split; [done|]. split; [done|].
    do 2 f_equal. lia.
Qed.

Lemma kv_result_cons raw rest data :
  kv_result (raw :: rest) data = kv_result rest (store (line_pair raw) data).
Proof. reflexivity. Qed.

Lemma kv_result_lookup_Some lines data k v :
  kv_result lines data !! k = Some v ->
  data !! k = Some v \/
  exists raw, In raw lines /\ line_pair raw = Some (k, v).
Proof.
  revert data. induction lines as [|raw rest IH]; intros d; [by left|].
  rewrite kv_result_cons. intros H. destruct (IH _ H) as [H'|(r & Hr & Hp)].
  - destruct (line_pair raw) as [[k' v']|] eqn:E; [|by left]. simpl in H'.
    destruct (decide (k' = k)) as [->|Hne].
    + rewrite lookup_insert_eq in H'. injection H' as ->.
      right. exists raw. split; [by left | done].
    + rewrite lookup_insert_ne in H' by done. by left.
  - right. exists r. split; [by right | done].
Qed.

Lemma kv_result_keeps lines data k :
  is_Some (data !! k) -> is_Some (kv_result lines data !! k).
Proof.
  revert data. induction lines as [|raw rest IH]; intros d H; [done|].
  rewrite kv_result_cons. apply IH.
  destruct (line_pair raw) as [[k' v']|]; [|done]. simpl.
  destruct (decide (k' = k)) as [->|Hne].
  - rewrite lookup_insert_eq. by eexists.
  - by rewrite lookup_insert_ne.
Qed.

Lemma kv_result_has_key lines data raw k v :
  In raw lines -> line_pair raw = Some (k, v) ->
  is_Some (kv_result lines data !! k).
Proof.
  revert data. induction lines as [|r rest IH]; intros d Hin Hp; [done|].
  destruct Hin as [<-|H].
  - rewrite kv_result_cons, Hp. apply kv_result_keeps. simpl.
    rewrite lookup_insert_eq. by eexists.
  - rewrite kv_result_cons. by apply IH.
Qed.

(** The key of a valid line: trimmed, without an equals sign, and not
    starting with a hash. *)
Lemma line_pair_key raw k v :
  line_pair raw = Some (k, v) ->
  strip k = k /\ contains EQUALS k = false /\ startswith (py "#") k = false.
Proof.
  unfold line_pair.
  destruct (bool_decide (strip raw = []) || startswith (py "#") (strip raw))
    eqn:E1; [done|].
  apply orb_false_iff in E1 as [_ Hc].
  destruct (split1 EQUALS (strip raw)) as [[a b]|] eqn:E2; [|done].
  intros [= <- _]. apply split1_Some in E2 as [E Ha].
  split; [apply strip_idemp|].
  destruct (strip_trimmed a) as (pre & post & Ea & Bpre & _ & Hn & _).
  split.
  - rewrite Ea, !contains_app in Ha.
    apply orb_false_iff in Ha as [_ Ha]. by apply orb_false_iff in Ha as [Ha _].
  - destruct (strip a) as [|c r] eqn:Es; [done|].
    destruct pre as [|p pre].
    + rewrite E, Ea in Hc. simpl in Hc. simpl. by rewrite andb_true_r in *.
    + exfalso. apply Forall_cons in Bpre as [Hp _].
      destruct (strip_trimmed raw) as (_ & _ & _ & _ & _ & Hh & _).
      rewrite E, Ea in Hh. simpl in Hh.
      specialize (Hh p _ eq_refl). congruence.
Qed.

Lemma kv_result_list_to_map lines :
  kv_result lines ∅ = list_to_map (reverse (pairs_of lines)).
Proof.
  induction lines as [|raw lines IH] using rev_ind; [done|].
  rewrite kv_result_app, IH. unfold pairs_of. rewrite omap_app, reverse_app.
  simpl. destruct (line_pair raw) as [[k v]|]; done.
Qed.

(** ** Reading lines *)

Lemma readlines_from_line cur l rest :
  one_line l ->
  readlines_from cur (l ++ rest) = readlines_from (rev l ++ cur) rest.
Proof.
  intros H. revert cur. induction H as [|c l [H1 H2] _ IH]; intros cur; [done|].
  simpl. apply Z.eqb_neq in H1, H2. rewrite H1, H2, IH.
  by rewrite <- app_assoc.
Qed.

Lemma text_of_cons eol l ls last :
  text_of eol (l :: ls) last = l ++ eol ++ text_of eol ls last.
Proof. unfold text_of. simpl. by rewrite <- !app_assoc. Qed.

Lemma text_of_CR_head ls last r :
  Forall one_line ls -> one_line last -> text_of [CR] ls last <> NL :: r.
Proof.
  intros Hls Hlast. destruct Hls as [|l ls Hl _].
  - unfold text_of. simpl. intros ->. apply Forall_cons in Hlast as [[H _] _].
    done.
  - rewrite text_of_cons. destruct Hl as [|c l [H _] _]; simpl; [done|].
    by intros [= ->].
Qed.

Lemma readlines_from_eol cur eol rest :
  is_eol eol ->
  (eol = [CR] -> forall r, rest <> NL :: r) ->
  readlines_from cur (eol ++ rest) = rev (NL :: cur) :: readlines_from [] rest.
Proof.
  intros [-> | [-> | ->]] H; [done|done|]. simpl.
  destruct rest as [|d r]; [done|].
  destruct (d =? NL) eqn:E; [|done].
  apply Z.eqb_eq in E as ->. by destruct (H eq_refl r).
Qed.

Lemma readlines_text_of eol ls last :
  is_eol eol -> Forall one_line ls -> one_line last ->
  readlines (text_of eol ls last) = lines_read ls last.
Proof.
  intros He Hls Hlast. unfold readlines, lines_read.
  induction Hls as [|l ls Hl Hls IH].
  - unfold text_of. simpl. rewrite <- (app_nil_r last) at 1.
    rewrite readlines_from_line by done. simpl. rewrite app_nil_r.
    destruct last as [|c r]; [done|].
    destruct (rev (c :: r)) as [|d t] eqn:E.
    + apply (f_equal (@length Z)) in E. rewrite length_rev in E. done.
    + by rewrite <- E, rev_involutive.
  - rewrite text_of_cons, readlines_from_line by done.
    rewrite readlines_from_eol; [|done|].
    + rewrite app_nil_r, IH. simpl. by rewrite rev_involutive.
    + intros -> r. by apply text_of_CR_head.
Qed.

(** ** What the parser guarantees *)

(** X1: what parsing a path comes to.  An absent path raises the
    not-found error before anything is opened; a path that cannot be opened
    raises at the open; a file that stops decoding part-way has its earlier
    lines parsed and warned about, then raises, and the mapping is lost; a
    file that is text throughout gives a mapping, whatever its lines: no
    line can make the parser raise. *)
Theorem parse_kv_file_outcome (w : world) (path : pystr) :
  match fs w path with
  | Absent =>
      parse_kv_file w path
      = ([], inl (FileNotFoundError (py "KV file not found: " ++ path)))
  | NotText err => parse_kv_file w path = ([Open path], inl (OSError err))
  | Garbled lines err =>
      exists warnings,
        parse_kv_file w path
        = (Open path :: warnings, inl (UnicodeDecodeError err)) /\
        warnings = trace (kv_loop 1 lines ∅) /\
        Forall is_stderr warnings
  | Text content =>
      exists warnings data,
        parse_kv_file w path = (Open path :: warnings, inr data) /\
        Forall is_stderr warnings
  end.
Proof.
  assert (Hs : forall lines, Forall is_stderr (trace (kv_loop 1 lines ∅))).
  { intros lines. apply List.Forall_forall. intros ev H.
    apply kv_loop_trace_events in H as (i & raw & _ & _ & ->). by eexists. }
  destruct (fs w path) as [|err|content|lines err] eqn:E.
  - by apply parse_kv_file_absent.
  - by apply parse_kv_file_not_text.
  - eexists _, _. split; [by apply parse_kv_file_text|]. apply Hs.
  - eexists. split; [by apply parse_kv_file_garbled|]. split; [done|].
    apply Hs.
Qed.

(** X2: the mapping holds what the file says and nothing else: every entry
    is the pair of some line of the file, and the key of every valid line is
    in the mapping. *)
Theorem parsed_entries_come_from_lines (w : world) (path content : pystr) :
  fs w path = Text content ->
  exists data,
    snd (parse_kv_file w path) = inr data /\
    (forall k v, data !! k = Some v ->
       exists raw, In raw (readlines content) /\ line_pair raw = Some (k, v)) /\
    (forall raw k v, In raw (readlines content) ->
       line_pair raw = Some (k, v) -> is_Some (data !! k)).
Proof.
  intros Hf. rewrite (parse_kv_file_text _ _ _ Hf). eexists. split; [done|].
  split.
  - intros k v H. by apply kv_result_lookup_Some in H as [H|H].
  - intros raw k v. apply kv_result_has_key.
Qed.

Lemma parsed_entries_come_from_lines_witness :
  let w := sample_world [(py "data.txt", Text five_lines)] None in
  fs w (py "data.txt") = Text five_lines /\
  exists data,
    snd (parse_kv_file w (py "data.txt")) = inr data /\
    (forall k v, data !! k = Some v ->
       exists raw, In raw (readlines five_lines) /\ line_pair raw = Some (k, v)).
Proof.
  intros w. split; [reflexivity|].
  destruct (parsed_entries_come_from_lines w (py "data.txt") five_lines)
    as (data & H1 & H2 & _); [reflexivity|].
  exists data. split; [exact H1 | exact H2].
Defined.

(** X3: every key of the parsed mapping is trimmed, holds no equals sign and
    does not start with a hash. *)
Theorem parsed_keys_are_clean (w : world) (path content : pystr)
    (data : gmap pystr pystr) (k v : pystr) :
  fs w path = Text content ->
  snd (parse_kv_file w path) = inr data ->
  data !! k = Some v ->
  strip k = k /\ contains EQUALS k = false /\ startswith (py "#") k = false.
Proof.
  intros Hf Hp Hk. rewrite (parse_kv_file_text _ _ _ Hf) in Hp.
  injection Hp as <-. apply kv_result_lookup_Some in Hk as [Hk|(raw & _ & Hr)].
  - done.
  - by eapply line_pair_key.
Qed.

Lemma parsed_keys_are_clean_witness :
  let content := py "  first name  = Anna = Maria " in
  let w := sample_world [(py "data.txt", Text content)] None in
  let data : gmap pystr pystr := {[ py "first name" := py "Anna = Maria" ]} in
  fs w (py "data.txt") = Text content /\
  snd (parse_kv_file w (py "data.txt")) = inr data /\
  data !! py "first name" = Some (py "Anna = Maria") /\
  strip (py "first name") = py "first name" /\
  contains EQUALS (py "first name") = false.
Proof.
  intros content w data.
  assert (H1 : fs w (py "data.txt") = Text content) by reflexivity.
  assert (H2 : snd (parse_kv_file w (py "data.txt")) = inr data)
    by (by vm_compute).
  assert (H3 : data !! py "first name" = Some (py "Anna = Maria"))
    by (by vm_compute).
  do 3 (split; [assumption|]).
  destruct (parsed_keys_are_clean w (py "data.txt") content data
              (py "first name") (py "Anna = Maria") H1 H2 H3) as (E1 & E2 & _).
  split; [exact E1 | exact E2].
Defined.

(** X4: the parser prints nothing but warnings of invalid lines, each with
    the number the line has in the file, counting every line from one. *)
Theorem parse_prints_only_warnings (w : world) (path content : pystr)
    (ev : event) :
  fs w path = Text content ->
  In ev (trace (parse_kv_file w path)) ->
  ev = Open path \/
  exists i raw,
    readlines content !! i = Some raw /\ invalid raw /\
    ev = Stderr (warning (1 + Z.of_nat i) (strip raw)).
Proof.
  intros Hf. rewrite (parse_kv_file_text _ _ _ Hf). intros [<-|H]; [by left|].
  right. by apply kv_loop_trace_events.
Qed.

Lemma parse_prints_only_warnings_witness :
  let content := py "A=1" ++ [NL] ++ [NL] ++ py "oops" ++ [NL] in
  let w := sample_world [(py "data.txt", Text content)] None in
  let ev := Stderr (py "Warning: skipping invalid line 3: oops") in
  fs w (py "data.txt") = Text content /\
  In ev (trace (parse_kv_file w (py "data.txt"))) /\
  (ev = Open (py "data.txt") \/
   exists i raw,
     readlines content !! i = Some raw /\ invalid raw /\
     ev = Stderr (warning (1 + Z.of_nat i) (strip raw))).
Proof.
  intros content w ev.
  assert (H1 : fs w (py "data.txt") = Text content) by reflexivity.
  assert (H2 : In ev (trace (parse_kv_file w (py "data.txt"))))
    by (right; left; reflexivity).
  split; [exact H1|]. split; [exact H2|].
  exact (parse_prints_only_warnings w (py "data.txt") content ev H1 H2).
Defined.

(** X5: the line ends do not matter: the same lines ended by line feeds, by
    carriage return and line feed, or by carriage returns, with or without a
    line end after the last one, are read as the same lines and parse to the
    same mapping with the same warnings. *)
Theorem line_ends_do_not_matter (w w' : world) (path eol eol' : pystr)
    (ls : list pystr) (last : pystr) :
  is_eol eol -> is_eol eol' ->
  Forall one_line ls -> one_line last ->
  fs w path = Text (text_of eol ls last) ->
  fs w' path = Text (text_of eol' ls last) ->
  readlines (text_of eol ls last) = lines_read ls last /\
  parse_kv_file w path = parse_kv_file w' path.
Proof.
  intros He He' Hls Hlast Hf Hf'. split; [by apply readlines_text_of|].
  rewrite (parse_kv_file_text _ _ _ Hf), (parse_kv_file_text _ _ _ Hf').
  by rewrite !readlines_text_of.
Qed.

Lemma line_ends_do_not_matter_witness :
  let ls := [py "A=1"; py ""; py "B = 2"] in
  let w := sample_world [(py "data.txt", Text (text_of [NL] ls (py "C=3")))] None in
  let w' := sample_world [(py "data.txt", Text (text_of [CR; NL] ls (py "C=3")))] None in
  is_eol [NL] /\ is_eol [CR; NL] /\ Forall one_line ls /\ one_line (py "C=3") /\
  fs w (py "data.txt") = Text (text_of [NL] ls (py "C=3")) /\
  fs w' (py "data.txt") = Text (text_of [CR; NL] ls (py "C=3")) /\
  parse_kv_file w (py "data.txt") = parse_kv_file w' (py "data.txt").
Proof.
  intros ls w w'.
  assert (H1 : is_eol [NL]) by (by left).
  assert (H2 : is_eol [CR; NL]) by (right; by left).
  assert (H3 : Forall one_line ls) by (repeat constructor; by vm_compute).
  assert (H4 : one_line (py "C=3")) by (repeat constructor; by vm_compute).
  do 4 (split; [assumption|]). do 2 (split; [reflexivity|]).
  destruct (line_ends_do_not_matter w w' (py "data.txt") [NL] [CR; NL] ls
              (py "C=3") H1 H2 H3 H4) as [_ H]; [reflexivity..|].
  exact H.
Defined.

Lemma line_pair_strip raw : line_pair (strip raw) = line_pair raw.
Proof. unfold line_pair. by rewrite strip_idemp. Qed.

Lemma pairs_of_strip lines : pairs_of lines = pairs_of (strip <$> lines).
Proof.
  induction lines as [|raw rest IH]; [done|].
  change (pairs_of (raw :: rest))
    with (match line_pair raw with
          | Some p => p :: pairs_of rest
          | None => pairs_of rest
          end).
  change (pairs_of (strip <$> raw :: rest))
    with (match line_pair (strip raw) with
          | Some p => p :: pairs_of (strip <$> rest)
          | None => pairs_of (strip <$> rest)
          end).
  by rewrite line_pair_strip, IH.
Qed.

(** X6: when no two valid lines have the same key, the order of the lines
    does not matter: a file whose trimmed lines are a rearrangement of the
    trimmed lines of another parses to the same mapping, also when the
    rearrangement moves a last line that has no line end. *)
Theorem line_order_does_not_matter (w w' : world) (path content content' : pystr) :
  fs w path = Text content ->
  fs w' path = Text content' ->
  strip <$> readlines content ≡ₚ strip <$> readlines content' ->
  NoDup (pairs_of (readlines content)).*1 ->
  snd (parse_kv_file w path) = snd (parse_kv_file w' path).
Proof.
  intros Hf Hf' Hperm Hnd.
  rewrite (parse_kv_file_text _ _ _ Hf), (parse_kv_file_text _ _ _ Hf').
  simpl. f_equal. rewrite !kv_result_list_to_map.
  apply list_to_map_proper.
  - rewrite reverse_Permutation. done.
  - rewrite !reverse_Permutation.
    rewrite (pairs_of_strip (readlines content)).
    rewrite (pairs_of_strip (readlines content')).
    unfold pairs_of. by rewrite Hperm.
Qed.

Lemma line_order_does_not_matter_witness :
  let content := py "A=1" ++ [NL] ++ py "B=2" in
  let content' := py "B=2" ++ [NL] ++ py "A=1" in
  let w := sample_world [(py "data.txt", Text content)] None in
  let w' := sample_world [(py "data.txt", Text content')] None in
  fs w (py "data.txt") = Text content /\
  fs w' (py "data.txt") = Text content' /\
  strip <$> readlines content ≡ₚ strip <$> readlines content' /\
  NoDup (pairs_of (readlines content)).*1 /\
  snd (parse_kv_file w (py "data.txt")) = snd (parse_kv_file w' (py "data.txt")).
Proof.
  intros content content' w w'.
  assert (H3 : strip <$> readlines content ≡ₚ strip <$> readlines content').
  { change (strip <$> readlines content) with [py "A=1"; py "B=2"].
    change (strip <$> readlines content') with [py "B=2"; py "A=1"].
    apply perm_swap. }
  assert (H4 : NoDup (pairs_of (readlines content)).*1).
  { change (pairs_of (readlines content)).*1 with [py "A"; py "B"].
    apply NoDup_cons. split; [|apply NoDup_singleton].
    intros H. apply list_elem_of_singleton in H. by vm_compute in H. }
  do 2 (split; [reflexivity|]). split; [exact H3|]. split; [exact H4|].
  exact (line_order_does_not_matter w w' (py "data.txt") content content'
           eq_refl eq_refl H3 H4).
Defined.

(** * Further properties of the sanitizer *)

Lemma slice_nil lo hi : slice [] lo hi = [].
Proof. unfold slice. by rewrite take_nil, drop_nil. Qed.

Section SanitizerMore.

Variable u : Z -> bool.

Lemma safe_filename_all_clean s maxlen :
  safe_filename u s maxlen <> [] /\ Forall (clean u) (safe_filename u s maxlen).
Proof.
  rewrite safe_filename_unfold.
  pose proof (slice_Forall _ _ None (Some maxlen) (sanitized_text_clean u s))
    as Hs.
  destruct (slice _ _ _) as [|c t]; simpl; [|done].
  split; [done|]. repeat constructor; by vm_compute.
Qed.

Lemma strip_no_space s : Forall (fun c => isspace c = false) s -> strip s = s.
Proof.
  intros H. symmetry. apply trimmed_strip. exists [], [].
  rewrite app_nil_r. split; [done|]. do 2 (split; [constructor|]).
  split; intros c r ->.
  - by apply Forall_cons in H as [H _].
  - apply Forall_app in H as [_ H]. by apply Forall_cons in H as [H _].
Qed.

Lemma strip_Forall (P : Z -> Prop) s : Forall P s -> Forall P (strip s).
Proof.
  intros H. destruct (strip_trimmed s) as (pre & post & E & _).
  rewrite E in H. apply Forall_app in H as [_ H].
  by apply Forall_app in H as [H _].
Qed.

Lemma sub_unsafe_allowed s :
  Forall (fun c => allowed u c = true) s -> sub_unsafe u s = s.
Proof.
  induction 1 as [|c s Hc _ IH]; simpl; [done|].
  unfold unsafe. fold (allowed u c). by rewrite Hc, IH.
Qed.

Lemma sub_unsafe_all s :
  Forall (fun c => unsafe u c = true) s -> sub_unsafe u s = [].
Proof. induction 1 as [|c s Hc _ IH]; simpl; [done|]. by rewrite Hc. Qed.

Lemma sub_spaces_no_space s :
  Forall (fun c => isspace c = false) s -> sub_spaces false s = s.
Proof. induction 1 as [|c s Hc _ IH]; simpl; [done|]. by rewrite Hc, IH. Qed.

Lemma clean_allowed c : clean u c -> allowed u c = true.
Proof.
  intros [[H| ->] _]; unfold allowed; [by rewrite H|].
  by rewrite orb_true_r.
Qed.

Lemma sanitized_text_of_clean s :
  Forall (clean u) s -> sanitized_text u (Some s) = s.
Proof.
  intros H. unfold sanitized_text.
  assert (Hs : Forall (fun c => isspace c = false) s)
    by (eapply Forall_impl; [exact H | by intros c [_ ?]]).
  assert (Ha : Forall (fun c => allowed u c = true) s)
    by (eapply Forall_impl; [exact H | apply clean_allowed]).
  rewrite str_or_empty_default. simpl default.
  by rewrite strip_no_space, sub_unsafe_allowed, sub_spaces_no_space.
Qed.

Lemma safe_filename_of_clean s maxlen :
  s <> [] -> Forall (clean u) s -> len s <= maxlen ->
  safe_filename u (Some s) maxlen = s.
Proof.
  intros Hne Hc Hlen. rewrite safe_filename_unfold, sanitized_text_of_clean by done.
  rewrite slice_upto by (unfold len in Hlen; lia).
  rewrite take_ge by (unfold len in Hlen; lia). by destruct s.
Qed.

Lemma safe_filename_cases s maxlen :
  0 <= maxlen ->
  safe_filename u s maxlen = py "output" \/
  safe_filename u s maxlen = take (Z.to_nat maxlen) (sanitized_text u s).
Proof.
  intros H. rewrite safe_filename_unfold, slice_upto by done.
  destruct (take _ _); [by left | by right].
Qed.

Lemma safe_filename_len s maxlen :
  0 <= maxlen -> len (safe_filename u s maxlen) <= Z.max maxlen 6.
Proof.
  intros H. destruct (safe_filename_cases s maxlen H) as [-> | ->].
  - change (len (py "output")) with 6. lia.
  - unfold len. rewrite length_take. lia.
Qed.

End SanitizerMore.

(** X7: a name that is already safe and short enough is returned as it is:
    a non-empty string of word characters and hyphens, no longer than the
    maximum length, is a fixed point of [safe_filename]. *)
Theorem safe_filename_keeps_safe_names (u : Z -> bool) (s : pystr) (maxlen : Z) :
  s <> [] -> Forall (clean u) s -> len s <= maxlen ->
  safe_filename u (Some s) maxlen = s.
Proof.
  intros Hne Hc Hlen.
  rewrite safe_filename_unfold, sanitized_text_of_clean by done.
  assert (0 <= maxlen) by (pose proof (Zle_0_nat (length s)); unfold len in Hlen; lia).
  rewrite slice_upto by done.
  rewrite take_ge by (unfold len in Hlen; lia).
  by destruct s.
Qed.

Lemma safe_filename_keeps_safe_names_witness :
  py "Anna-Maria_2" <> [] /\
  Forall (clean latin1_isalnum) (py "Anna-Maria_2") /\
  len (py "Anna-Maria_2") <= 12 /\
  safe_filename latin1_isalnum (Some (py "Anna-Maria_2")) 12 = py "Anna-Maria_2".
Proof.
  assert (H1 : py "Anna-Maria_2" <> []) by done.
  assert (H2 : Forall (clean latin1_isalnum) (py "Anna-Maria_2")).
  { repeat constructor; by vm_compute || (right; by vm_compute). }
  assert (H3 : len (py "Anna-Maria_2") <= 12) by (by vm_compute).
  do 3 (split; [assumption|]).
  exact (safe_filename_keeps_safe_names latin1_isalnum (py "Anna-Maria_2") 12
           H1 H2 H3).
Defined.

(** X8: with a non-negative maximum length the result is either the
    fallback output or the first [maxlen] characters of the sanitized text,
    so it is never longer than the larger of [maxlen] and six: the fallback
    is not cut, and a maximum length under six can be exceeded. *)
Theorem safe_filename_length (u : Z -> bool) (s : option pystr) (maxlen : Z) :
  0 <= maxlen ->
  (safe_filename u s maxlen = py "output" \/
   safe_filename u s maxlen = take (Z.to_nat maxlen) (sanitized_text u s)) /\
  len (safe_filename u s maxlen) <= Z.max maxlen 6 /\
  (6 <= maxlen -> len (safe_filename u s maxlen) <= maxlen) /\
  (maxlen < 6 -> sanitized_text u s = [] ->
   maxlen < len (safe_filename u s maxlen)).
Proof.
  intros H. split; [by apply safe_filename_cases|].
  pose proof (safe_filename_len u s maxlen H) as L.
  split; [done|]. split; [lia|].
  intros H6 He. rewrite safe_filename_unfold, He, slice_nil. simpl or_str.
  change (len (py "output")) with 6. lia.
Qed.

Lemma safe_filename_length_witness :
  0 <= 3 /\
  safe_filename latin1_isalnum (Some (py "?!")) 3 = py "output" /\
  3 < len (safe_filename latin1_isalnum (Some (py "?!")) 3).
Proof.
  split; [lia|]. split; [reflexivity|].
  destruct (safe_filename_length latin1_isalnum (Some (py "?!")) 3)
    as (_ & _ & _ & H); [lia|].
  apply H; [lia | reflexivity].
Defined.

(** X9: with a maximum length of at least six, sanitizing twice is the same
    as sanitizing once. *)
Theorem safe_filename_idempotent (u : Z -> bool) (s : option pystr) (maxlen : Z) :
  6 <= maxlen ->
  safe_filename u (Some (safe_filename u s maxlen)) maxlen
  = safe_filename u s maxlen.
Proof.
  intros H. destruct (safe_filename_all_clean u s maxlen) as [Hne Hc].
  apply safe_filename_of_clean; [done..|].
  pose proof (safe_filename_len u s maxlen). lia.
Qed.

Lemma safe_filename_idempotent_witness :
  let once := safe_filename latin1_isalnum (Some (py " John  Doe!! ")) 6 in
  6 <= 6 /\ once = py "John_D" /\
  safe_filename latin1_isalnum (Some once) 6 = once.
Proof.
  intros once. split; [lia|]. split; [reflexivity|].
  apply (safe_filename_idempotent latin1_isalnum
           (Some (py " John  Doe!! ")) 6). lia.
Defined.

(** X10: an input that is absent, blank, or made of unsafe characters only
    is named output, whatever the maximum length. *)
Theorem safe_filename_fallback (u : Z -> bool) (s : option pystr) (maxlen : Z) :
  blank (default [] s) \/
  Forall (fun c => unsafe u c = true) (default [] s) ->
  safe_filename u s maxlen = py "output".
Proof.
  intros H. rewrite safe_filename_unfold. unfold sanitized_text.
  rewrite str_or_empty_default.
  assert (E : sub_unsafe u (strip (default [] s)) = []).
  { destruct H as [H|H]; [by rewrite strip_blank|].
    by apply sub_unsafe_all, strip_Forall. }
  by rewrite E, slice_nil.
Qed.

Lemma safe_filename_fallback_witness :
  (blank (default [] (Some (py "?/*:"))) \/
   Forall (fun c => unsafe latin1_isalnum c = true) (default [] (Some (py "?/*:")))) /\
  safe_filename latin1_isalnum (Some (py "?/*:")) (-2) = py "output".
Proof.
  assert (H : blank (default [] (Some (py "?/*:"))) \/
              Forall (fun c => unsafe latin1_isalnum c = true)
                (default [] (Some (py "?/*:"))))
    by (right; repeat constructor).
  split; [exact H|].
  exact (safe_filename_fallback latin1_isalnum (Some (py "?/*:")) (-2) H).
Defined.

(** * Further properties of the output name and of [main] *)

Lemma clean_not_path_char u c : clean u c -> ~ path_char c.
Proof.
  intros [[H|H] _] [-> | [-> | ->]]; by vm_compute in H.
Qed.

Lemma first_nonempty_empty keys : first_nonempty ∅ keys = None.
Proof. apply first_nonempty_none. intros k _. left. apply lookup_empty. Qed.

(** X11: a name chosen by the program cannot leave the output directory: it
    is a non-empty base of at most 120 characters followed by .docx, and the
    base holds no whitespace, no dot, no slash and no backslash, whatever the
    KV file says. *)
Theorem out_name_stays_in_outdir (u : Z -> bool) (name : option pystr)
    (ctx : gmap pystr pystr) :
  truthy name = false ->
  exists base,
    out_name u name ctx = base ++ py ".docx" /\
    base <> [] /\ len base <= 120 /\
    Forall (fun c => isspace c = false /\ ~ path_char c) base.
Proof.
  intros Hn. rewrite out_name_candidates by done.
  destruct (first_nonempty ctx candidate_keys) as [v|].
  - exists (safe_filename u (Some v) default_maxlen). split; [done|].
    destruct (safe_filename_all_clean u (Some v) default_maxlen) as [Hne Hc].
    split; [done|]. split.
    + pose proof (safe_filename_len u (Some v) default_maxlen).
      unfold default_maxlen in *. lia.
    + eapply Forall_impl; [exact Hc|]. intros c H. split; [apply H|].
      by eapply clean_not_path_char.
  - exists (py "document"). split; [done|]. split; [done|].
    split; [by vm_compute|].
    repeat constructor; try (by vm_compute);
      intros [H | [H | H]]; by vm_compute in H.
Qed.

Lemma out_name_stays_in_outdir_witness :
  let ctx : gmap pystr pystr := {[ py "FIRSTNAME" := py "../../etc/passwd" ]} in
  truthy None = false /\
  out_name latin1_isalnum None ctx = py "etcpasswd.docx" /\
  exists base,
    out_name latin1_isalnum None ctx = base ++ py ".docx" /\
    Forall (fun c => isspace c = false /\ ~ path_char c) base.
Proof.
  intros ctx. split; [reflexivity|]. split; [by vm_compute|].
  destruct (out_name_stays_in_outdir latin1_isalnum None ctx)
    as (base & H1 & _ & _ & H2); [reflexivity|].
  exists base. split; [exact H1 | exact H2].
Defined.

Section MainMore.

Variable u : Z -> bool.
Variable w : world.
Variable a : args.

Lemma kv_loop_trace_stderr lineno lines ev :
  In ev (trace (kv_loop lineno lines ∅)) -> is_stderr ev.
Proof.
  intros H. apply kv_loop_trace_events in H as (i & raw & _ & _ & ->).
  by eexists.
Qed.

Lemma main_mkdir_fails err :
  mkdir_error w (path_str w (outdir a)) = Some err ->
  main u w a = ([Mkdir (path_str w (outdir a))], inl (OSError err)).
Proof. intros H. unfold main. by rewrite H. Qed.

(** The run of [main] once the KV file has been read as text. *)
Lemma main_text content :
  mkdir_error w (path_str w (outdir a)) = None ->
  path_exists w (path_str w (template a)) = true ->
  fs w (path_str w (kvfile a)) = Text content ->
  let tpl := path_str w (template a) in
  let ctx := kv_result (readlines content) ∅ in
  let out := path_join w (path_str w (outdir a)) (out_name u (name a) ctx) in
  let line := py "Generated: " ++ out in
  main u w a
  = (Mkdir (path_str w (outdir a)) :: Open (path_str w (kvfile a))
       :: diagnostics content ++ Open tpl
       :: match docx_error w tpl ctx out with
          | Some err => [Stderr (py "ERROR generating document: " ++ err)]
          | None =>
              Save tpl ctx out
              :: match stdout_encode_error w line with
                 | Some err => [Stderr (py "ERROR generating document: " ++ err)]
                 | None => [Stdout line]
                 end
          end,
     match docx_error w tpl ctx out with
     | Some _ => inl (SystemExit 4)
     | None =>
         match stdout_encode_error w line with
         | Some _ => inl (SystemExit 4)
         | None => inr tt
         end
     end).
Proof.
  intros H1 H2 H3 tpl ctx out line. unfold main, diagnostics.
  rewrite H1, H2, (parse_kv_file_text _ _ _ H3).
  unfold try_except at 2. unfold generate_doc, print_stdout.
  remember (py "Generated: ") as generated eqn:Hg.
  remember (py "ERROR generating document: ") as failed eqn:Hfl.
  simpl. fold tpl. fold ctx. fold out. fold line.
  destruct (bool_decide (ctx = ∅));
    destruct (docx_error w tpl ctx out);
    destruct (stdout_encode_error w line); simpl;
    by rewrite <- ?app_assoc.
Qed.

Lemma diagnostics_stderr content : Forall is_stderr (diagnostics content).
Proof.
  apply Forall_app. split.
  - apply List.Forall_forall. intros ev. apply kv_loop_trace_stderr.
  - destruct (bool_decide _); repeat constructor. by eexists.
Qed.

Lemma main_argv_parsed : main_argv u w (Parsed a) = main u w a.
Proof. unfold main_argv. simpl. by destruct (main u w a). Qed.

End MainMore.





(** X12: when the output directory cannot be made the process dies of the
    uncaught exception, with exit status 1, before it looks at the template
    or the KV file and without printing a message of its own. *)
Theorem main_mkdir_failure (u : Z -> bool) (w : world) (a : args) (err : pystr) :
  mkdir_error w (path_str w (outdir a)) = Some err ->
  main u w a = ([Mkdir (path_str w (outdir a))], inl (OSError err)) /\
  exit_status (main u w a) = 1.
Proof.
  intros H. pose proof (main_mkdir_fails u w a err H) as E.
  split; [done|]. unfold exit_status. by rewrite E.
Qed.

Lemma main_mkdir_failure_witness :
  let w := {| path_str := fun s => s;
              path_join := fun d n => d ++ py "/" ++ n;
              fs := fun _ => Absent;
              mkdir_error := fun _ => Some (py "Permission denied");
              docx_error := fun _ _ _ => None;
              stdout_encode_error := fun _ => None |} in
  let a := {| kvfile := py "data.txt"; template := py "letter.docx";
              outdir := py "/root/out"; name := None |} in
  mkdir_error w (path_str w (outdir a)) = Some (py "Permission denied") /\
  exit_status (main latin1_isalnum w a) = 1.
Proof.
  intros w a. split; [reflexivity|].
  destruct (main_mkdir_failure latin1_isalnum w a (py "Permission denied"))
    as [_ H]; [reflexivity|]. exact H.
Defined.

(** X13: when the command line parses, the directory can be made, the
    template exists, the KV file is text, the renderer succeeds and the
    confirmation can be printed, the program renders once, with the
    template, the parsed mapping and the path of the output name under the
    output directory, prints that path and ends with status 0; before
    rendering it prints only diagnostics. *)
Theorem main_success (u : Z -> bool) (w : world) (a : args) (content : pystr) :
  let tpl := path_str w (template a) in
  let ctx := kv_result (readlines content) ∅ in
  let out := path_join w (path_str w (outdir a)) (out_name u (name a) ctx) in
  mkdir_error w (path_str w (outdir a)) = None ->
  path_exists w tpl = true ->
  fs w (path_str w (kvfile a)) = Text content ->
  docx_error w tpl ctx out = None ->
  stdout_encode_error w (py "Generated: " ++ out) = None ->
  Forall is_stderr (diagnostics content) /\
  main_argv u w (Parsed a)
  = (Mkdir (path_str w (outdir a)) :: Open (path_str w (kvfile a))
       :: diagnostics content
       ++ [Open tpl; Save tpl ctx out; Stdout (py "Generated: " ++ out)],
     inr tt) /\
  exit_status (main_argv u w (Parsed a)) = 0.
Proof.
  intros tpl ctx out H1 H2 H3 H4 H5.
  pose proof (main_text u w a content H1 H2 H3) as E. cbv zeta in E.
  fold ctx in E. fold tpl in E. fold out in E. rewrite H4, H5 in E.
  rewrite main_argv_parsed. split; [apply diagnostics_stderr|].
  split; [exact E|]. unfold exit_status. by rewrite E.
Qed.

Lemma main_success_witness :
  let content := py "FIRSTNAME = Anna" ++ [NL] ++ py "LASTNAME=Smith" in
  let w := sample_world [(py "letter.docx", NotText (py "binary"));
                         (py "data.txt", Text content)] None in
  let a := {| kvfile := py "data.txt"; template := py "letter.docx";
              outdir := py "out"; name := None |} in
  let ctx : gmap pystr pystr :=
    {[ py "FIRSTNAME" := py "Anna"; py "LASTNAME" := py "Smith" ]} in
  mkdir_error w (path_str w (outdir a)) = None /\
  path_exists w (path_str w (template a)) = true /\
  fs w (path_str w (kvfile a)) = Text content /\
  main_argv latin1_isalnum w (Parsed a)
  = ([Mkdir (py "out"); Open (py "data.txt"); Open (py "letter.docx");
      Save (py "letter.docx") ctx (py "out/Anna.docx");
      Stdout (py "Generated: out/Anna.docx")], inr tt) /\
  exit_status (main_argv latin1_isalnum w (Parsed a)) = 0.
Proof.
  intros content w a ctx. do 3 (split; [reflexivity|]).
  destruct (main_success latin1_isalnum w a content)
    as (_ & _ & H); [reflexivity..|].
  split; [by vm_compute | exact H].
Defined.


Lemma kv_result_no_pairs lines data :
  Forall (fun raw => line_pair raw = None) lines ->
  kv_result lines data = data.
Proof.
  induction 1 as [|raw rest Hraw _ IH]; [done|].
  by rewrite kv_result_cons, Hraw.
Qed.

(** X16: a KV file without any valid line is not an error: the program
    warns that no pairs were found and still renders the template, with the
    empty mapping, as document.docx when no name is given. *)
Theorem main_without_pairs (u : Z -> bool) (w : world) (a : args)
    (content : pystr) :
  let tpl := path_str w (template a) in
  let out := path_join w (path_str w (outdir a)) (py "document.docx") in
  mkdir_error w (path_str w (outdir a)) = None ->
  path_exists w tpl = true ->
  fs w (path_str w (kvfile a)) = Text content ->
  Forall (fun raw => line_pair raw = None) (readlines content) ->
  truthy (name a) = false ->
  docx_error w tpl ∅ out = None ->
  stdout_encode_error w (py "Generated: " ++ out) = None ->
  main_argv u w (Parsed a)
  = (Mkdir (path_str w (outdir a)) :: Open (path_str w (kvfile a))
       :: trace (kv_loop 1 (readlines content) ∅)
       ++ [Stderr (py "Warning: no key/value pairs found in kv file.");
           Open tpl; Save tpl ∅ out; Stdout (py "Generated: " ++ out)],
     inr tt).
Proof.
  intros tpl out H1 H2 H3 H4 H5 H6 H7.
  rewrite main_argv_parsed, (main_text u w a content H1 H2 H3). cbv zeta.
  unfold diagnostics. rewrite (kv_result_no_pairs _ _ H4).
  assert (En : out_name u (name a) ∅ = py "document.docx").
  { rewrite out_name_candidates by done. by rewrite first_nonempty_empty. }
  rewrite En. fold tpl. fold out. rewrite H6, H7.
  rewrite bool_decide_eq_true_2 by done. by rewrite <- app_assoc.
Qed.

Lemma main_without_pairs_witness :
  let content := py "# nothing here" ++ [NL] ++ [NL] ++ py "no pair" ++ [NL] in
  let w := sample_world [(py "letter.docx", NotText (py "binary"));
                         (py "data.txt", Text content)] None in
  let a := {| kvfile := py "data.txt"; template := py "letter.docx";
              outdir := py "out"; name := Some [] |} in
  mkdir_error w (path_str w (outdir a)) = None /\
  path_exists w (path_str w (template a)) = true /\
  fs w (path_str w (kvfile a)) = Text content /\
  Forall (fun raw => line_pair raw = None) (readlines content) /\
  truthy (name a) = false /\
  main_argv latin1_isalnum w (Parsed a)
  = ([Mkdir (py "out"); Open (py "data.txt");
      Stderr (py "Warning: skipping invalid line 3: no pair");
      Stderr (py "Warning: no key/value pairs found in kv file.");
      Open (py "letter.docx");
      Save (py "letter.docx") ∅ (py "out/document.docx");
      Stdout (py "Generated: out/document.docx")], inr tt).
Proof.
  intros content w a.
  assert (H4 : Forall (fun raw => line_pair raw = None) (readlines content))
    by (repeat constructor).
  do 3 (split; [reflexivity|]). split; [exact H4|]. split; [reflexivity|].
  rewrite (main_without_pairs latin1_isalnum w a content);
    [reflexivity | reflexivity.. | exact H4 | reflexivity | reflexivity
     | reflexivity].
Defined.

(** X17: a name given on the command line is used as it is, neither
    sanitized nor completed with an extension, whatever the KV file holds:
    when the renderer succeeds the document is saved under the output
    directory joined with that name, and when the confirmation can be
    printed that path is printed and the status is 0. *)
Theorem main_explicit_name (u : Z -> bool) (w : world) (a : args)
    (content n : pystr) :
  let tpl := path_str w (template a) in
  let ctx := kv_result (readlines content) ∅ in
  let out := path_join w (path_str w (outdir a)) n in
  name a = Some n -> n <> [] ->
  mkdir_error w (path_str w (outdir a)) = None ->
  path_exists w tpl = true ->
  fs w (path_str w (kvfile a)) = Text content ->
  docx_error w tpl ctx out = None ->
  In (Save tpl ctx out) (trace (main_argv u w (Parsed a))) /\
  (stdout_encode_error w (py "Generated: " ++ out) = None ->
   In (Stdout (py "Generated: " ++ out)) (trace (main_argv u w (Parsed a))) /\
   exit_status (main_argv u w (Parsed a)) = 0).
Proof.
  intros tpl ctx out Hn Hne H1 H2 H3 H4.
  pose proof (main_text u w a content H1 H2 H3) as E. cbv zeta in E.
  assert (En : out_name u (name a) ctx = n).
  { unfold out_name. rewrite Hn. by destruct n. }
  fold ctx in E. rewrite En in E. fold tpl in E. fold out in E.
  rewrite H4 in E. rewrite main_argv_parsed.
  unfold exit_status, trace. rewrite E. simpl. split.
  - right. right. apply in_or_app. right. right. by left.
  - intros H5. rewrite H5. split; [|done].
    right. right. apply in_or_app. right. right. right. by left.
Qed.

Lemma main_explicit_name_witness :
  let content := py "FIRSTNAME=Anna" in
  let w := sample_world [(py "letter.docx", NotText (py "binary"));
                         (py "data.txt", Text content)] None in
  let a := {| kvfile := py "data.txt"; template := py "letter.docx";
              outdir := py "out"; name := Some (py "my letter?") |} in
  name a = Some (py "my letter?") /\ py "my letter?" <> [] /\
  mkdir_error w (path_str w (outdir a)) = None /\
  path_exists w (path_str w (template a)) = true /\
  fs w (path_str w (kvfile a)) = Text content /\
  In (Save (py "letter.docx") {[ py "FIRSTNAME" := py "Anna" ]}
        (py "out/my letter?"))
     (trace (main_argv latin1_isalnum w (Parsed a))).
Proof.
  intros content w a. split; [reflexivity|]. split; [done|].
  do 3 (split; [reflexivity|]).
  destruct (main_explicit_name latin1_isalnum w a content (py "my letter?"))
    as [H _]; [reflexivity | done | reflexivity.. |].
  exact H.
Defined.

(** X18: the confirmation is printed inside the [try] of the generation:
    when the document has been saved but its path cannot be printed, the
    program reports a generation error and ends with status 4, although the
    document is there. *)
Theorem main_saved_but_not_confirmed (u : Z -> bool) (w : world) (a : args)
    (content err : pystr) :
  let tpl := path_str w (template a) in
  let ctx := kv_result (readlines content) ∅ in
  let out := path_join w (path_str w (outdir a)) (out_name u (name a) ctx) in
  mkdir_error w (path_str w (outdir a)) = None ->
  path_exists w tpl = true ->
  fs w (path_str w (kvfile a)) = Text content ->
  docx_error w tpl ctx out = None ->
  stdout_encode_error w (py "Generated: " ++ out) = Some err ->
  main_argv u w (Parsed a)
  = (Mkdir (path_str w (outdir a)) :: Open (path_str w (kvfile a))
       :: diagnostics content
       ++ [Open tpl; Save tpl ctx out;
           Stderr (py "ERROR generating document: " ++ err)],
     inl (SystemExit 4)) /\
  exit_status (main_argv u w (Parsed a)) = 4.
Proof.
  intros tpl ctx out H1 H2 H3 H4 H5.
  pose proof (main_text u w a content H1 H2 H3) as E. cbv zeta in E.
  fold ctx in E. fold tpl in E. fold out in E. rewrite H4, H5 in E.
  rewrite main_argv_parsed. split; [exact E|].
  unfold exit_status. by rewrite E.
Qed.

Lemma main_saved_but_not_confirmed_witness :
  let content := py "FIRSTNAME=Anna" in
  let w := {| path_str := fun s => s;
              path_join := fun d n => d ++ py "/" ++ n;
              fs := fun p => if bool_decide (p = py "data.txt")
                             then Text content else NotText (py "binary");
              mkdir_error := fun _ => None;
              docx_error := fun _ _ _ => None;
              stdout_encode_error := fun _ => Some (py "ascii codec") |} in
  let a := {| kvfile := py "data.txt"; template := py "letter.docx";
              outdir := py "out"; name := None |} in
  mkdir_error w (path_str w (outdir a)) = None /\
  path_exists w (path_str w (template a)) = true /\
  fs w (path_str w (kvfile a)) = Text content /\
  exit_status (main_argv latin1_isalnum w (Parsed a)) = 4 /\
  In (Save (py "letter.docx") {[ py "FIRSTNAME" := py "Anna" ]}
        (py "out/Anna.docx"))
     (trace (main_argv latin1_isalnum w (Parsed a))).
Proof.
  intros content w a. do 3 (split; [reflexivity|]).
  destruct (main_saved_but_not_confirmed latin1_isalnum w a content
              (py "ascii codec")) as [E H]; [reflexivity..|].
  split; [exact H|]. rewrite E. unfold trace. simpl fst.
  do 2 right. apply in_or_app. right. right. left. by vm_compute.
Defined.
